(** * node-dymo-printer2: the command encoder and the transport dispatcher

    A shallow embedding of [src/dymo-services.js] (class [DymoServices]) and
    the properties of its label command stream, its configuration check, its
    printer discovery and its four transports.

    Conventions of the embedding:
    - a [Buffer] is a list of byte values, each a [Z]; [Buffer.from] applied to
      an array of numbers keeps the low eight bits of every element;
    - JavaScript strings are [string]s; [undefined] string properties are
      [None] of [option string]; text is treated as ASCII;
    - the instance ([config], [chunks]) and the outside world (files, the
      calls made to collaborators) are threaded explicitly; a [static] method
      of the class only sees the world;
    - a promise is run to its settlement: an [outcome] is the fulfilled value,
      the rejection reason, or an exception thrown synchronously;
    - the collaborators that are not part of the class ([execute] of
      system-services.js, [net], [fs], [crypto], [os], [path], [process])
      and the [__dirname] of the module are the fields of an environment
      [Env]. *)

From Stdlib Require Import ZArith Lia String Ascii List Bool.
From stdpp Require Import base gmap strings list.

Open Scope string_scope.
Open Scope list_scope.

(** ** Bytes and buffers *)

Abbreviation Buffer := (list Z).

(** [Buffer.from(array)] stores every element modulo 256. *)
Definition to_uint8 (n : Z) : Z := Z.land n 255.

Definition Buffer_from (a : list Z) : Buffer := map to_uint8 a.

Definition Buffer_concat (list : list Buffer) : Buffer := concat list.

Definition is_byte (b : Z) : Prop := (0 <= b < 256)%Z.

(** ["c".charCodeAt(0)] *)
Definition charCodeAt0 (c : ascii) : Z := Z.of_N (N_of_ascii c).

(** The 32-bit integer operators [&] and [>>] first bring their operands
    into the signed 32-bit range. *)
Definition to_int32 (n : Z) : Z := ((n + 2 ^ 31) mod 2 ^ 32 - 2 ^ 31)%Z.

Definition js_and (a b : Z) : Z := Z.land (to_int32 a) (to_int32 b).

Definition js_shr (a b : Z) : Z := Z.shiftr (to_int32 a) (b mod 32).

(** [Math.ceil(a / b)] for integers [a] and a positive integer [b]. *)
Definition Math_ceil_div (a b : Z) : Z := (- ((- a) / b))%Z.

(** ** The fixed printer commands *)

Definition ESC : Z := 0x1b.

Definition CMD_RESET : Buffer := Buffer_from [ESC; charCodeAt0 "*"].
Definition CMD_FULL_FORM_FEED : Buffer := Buffer_from [ESC; charCodeAt0 "E"].
Definition CMD_SHORT_FORM_FEED : Buffer := Buffer_from [ESC; charCodeAt0 "G"].
Definition CMD_TEXT_SPEED_MODE : Buffer := Buffer_from [ESC; charCodeAt0 "h"].
Definition CMD_DENSITY_NORMAL : Buffer := Buffer_from [ESC; charCodeAt0 "e"].
Definition CMD_NO_DOT_TAB : Buffer := Buffer_from [ESC; charCodeAt0 "B"; 0%Z].
Definition CMD_START_ESC : Buffer := Buffer_from (replicate 313 ESC).

Definition PRINTER_INTERFACE_CUPS : string := "CUPS".
Definition PRINTER_INTERFACE_NETWORK : string := "NETWORK".
Definition PRINTER_INTERFACE_WINDOWS : string := "WINDOWS".
Definition PRINTER_INTERFACE_DEVICE : string := "DEVICE".

(** ** JavaScript string operations used by the class *)

Definition LF : ascii := "010"%char.
Definition CR : ascii := "013"%char.

(** Truthiness of a possibly undefined string: defined and not empty. *)
Definition truthy (s : option string) : bool :=
  match s with
  | Some (String _ _) => true
  | _ => false
  end.

Definition nonempty (s : string) : bool := truthy (Some s).

(** White space removed by [trim] (the ASCII part: tab, line feed, vertical
    tab, form feed, carriage return, space). *)
Definition is_space (c : ascii) : bool :=
  let n := nat_of_ascii c in
  ((9 <=? n)%nat && (n <=? 13)%nat) || (n =? 32)%nat.

Fixpoint trimStart (s : string) : string :=
  match s with
  | String c r => if is_space c then trimStart r else s
  | EmptyString => EmptyString
  end.

Fixpoint trimEnd (s : string) : string :=
  match s with
  | String c r =>
      match trimEnd r with
      | EmptyString => if is_space c then EmptyString else String c EmptyString
      | r' => String c r'
      end
  | EmptyString => EmptyString
  end.

Definition trim (s : string) : string := trimEnd (trimStart s).

Definition lower_char (c : ascii) : ascii :=
  let n := nat_of_ascii c in
  if (65 <=? n)%nat && (n <=? 90)%nat then ascii_of_nat (n + 32) else c.

Fixpoint toLowerCase (s : string) : string :=
  match s with
  | String c r => String (lower_char c) (toLowerCase r)
  | EmptyString => EmptyString
  end.

(** [s.startsWith(p)] *)
Fixpoint startsWith (p s : string) : bool :=
  match p, s with
  | EmptyString, _ => true
  | String a p', String b s' => Ascii.eqb a b && startsWith p' s'
  | String _ _, EmptyString => false
  end.

(** [s.indexOf(p) !== -1] *)
Fixpoint includes (p s : string) : bool :=
  startsWith p s ||
  match s with
  | String _ r => includes p r
  | EmptyString => false
  end.

(** Puts a character in front of the piece being read. *)
Definition cons_head (c : ascii) (pieces : list string) : list string :=
  match pieces with
  | h :: t => String c h :: t
  | [] => [String c EmptyString]
  end.

(** [s.split(sep)] for a one-character separator. *)
Fixpoint split (sep : ascii) (s : string) : list string :=
  match s with
  | EmptyString => [EmptyString]
  | String c r =>
      if Ascii.eqb c sep then EmptyString :: split sep r
      else cons_head c (split sep r)
  end.

(** [s.split(/\r?\n/)] *)
Fixpoint split_lines (s : string) : list string :=
  match s with
  | EmptyString => [EmptyString]
  | String c r =>
      if Ascii.eqb c LF then EmptyString :: split_lines r
      else if Ascii.eqb c CR then
        match r with
        | String c2 r2 =>
            if Ascii.eqb c2 LF then EmptyString :: split_lines r2
            else cons_head c (split_lines r)
        | EmptyString => cons_head c (split_lines r)
        end
      else cons_head c (split_lines r)
  end.

(** The longest run of [\r?\n] tokens at the start of [s]: how many tokens,
    how many characters, and the last token (what the capture group of
    [/(\r?\n){2,}/] holds after the match). *)
Fixpoint newline_run (s : string) : nat * nat * string :=
  match s with
  | String c r =>
      if Ascii.eqb c LF then
        let '(n, len, last) := newline_run r in
        (S n, S len, match n with O => String LF EmptyString | _ => last end)
      else if Ascii.eqb c CR then
        match r with
        | String c2 r2 =>
            if Ascii.eqb c2 LF then
              let '(n, len, last) := newline_run r2 in
              (S n, S (S len),
               match n with O => String CR (String LF EmptyString) | _ => last end)
            else (O, O, EmptyString)
        | EmptyString => (O, O, EmptyString)
        end
      else (O, O, EmptyString)
  | EmptyString => (O, O, EmptyString)
  end.

(** [s.split(/(\r?\n){2,}/)]: the pieces between the separators, each
    separator leaving the text of its capture group between two pieces.
    [skip] counts the characters of the current separator still to drop. *)
Fixpoint split_blocks_from (skip : nat) (s : string) : list string :=
  match s with
  | EmptyString => [EmptyString]
  | String c r =>
      match skip with
      | S k => split_blocks_from k r
      | O =>
          let '(n, len, last) := newline_run s in
          if (2 <=? n)%nat then EmptyString :: last :: split_blocks_from (len - 1) r
          else cons_head c (split_blocks_from O r)
      end
  end.

Definition split_blocks (s : string) : list string := split_blocks_from 0 s.

(** [s.replace(/_+/g, " ")]: every run of underscores becomes one space. *)
Fixpoint replace_underscores_from (in_run : bool) (s : string) : string :=
  match s with
  | EmptyString => EmptyString
  | String c r =>
      if Ascii.eqb c "_" then
        if in_run then replace_underscores_from true r
        else String " " (replace_underscores_from true r)
      else String c (replace_underscores_from false r)
  end.

Definition replace_underscores (s : string) : string :=
  replace_underscores_from false s.

(** The pattern [description:] under the [i] flag, tried at the start of [s]. *)
Definition matches_description (s : string) : bool :=
  startsWith "description:" (toLowerCase s).

(** [s.replace(/description:/gi, "")]: every occurrence is removed, reading
    from the left. *)
Fixpoint remove_description_from (skip : nat) (s : string) : string :=
  match s with
  | EmptyString => EmptyString
  | String c r =>
      match skip with
      | S k => remove_description_from k r
      | O =>
          if matches_description s then remove_description_from 11 r
          else String c (remove_description_from O r)
      end
  end.

Definition remove_description (s : string) : string :=
  remove_description_from 0 s.

Example split_ex :
  split ":" "Name : DYMO : 450" = ["Name "; " DYMO "; " 450"].
Proof. reflexivity. Qed.

Example trim_ex : trim "  DYMO 450  " = "DYMO 450".
Proof. reflexivity. Qed.

Example replace_underscores_ex :
  replace_underscores "DYMO__LabelWriter_450" = "DYMO LabelWriter 450".
Proof. reflexivity. Qed.

Example remove_description_ex :
  trim (remove_description "Description: DYMO 450") = "DYMO 450".
Proof. reflexivity. Qed.

Example split_blocks_ex :
  split_blocks
    (String "a" (String CR (String LF (String LF (String LF (String "b" EmptyString))))))
  = ["a"; String LF EmptyString; "b"].
Proof. reflexivity. Qed.

(** ** Data model *)

(** [PrinterConfig]: every property is optional. *)
Module Cfg.
Record t : Type := mk {
  interface : option string;
  host : option string;
  port : option Z;
  deviceId : option string;
  device : option string
}.

(** [{}] *)
Definition empty : t := mk None None None None None.

(** [Object.assign(target, source)]: the properties [source] has replace
    those of [target]. *)
Definition assign (target source : t) : t :=
  let pick {A} (a b : option A) := match b with Some _ => b | None => a end in
  mk (pick (interface target) (interface source))
     (pick (host target) (host source))
     (pick (port target) (port source))
     (pick (deviceId target) (deviceId source))
     (pick (device target) (device source)).
End Cfg.

(** A printer found by discovery, [{deviceId, name}]; a property can be
    [undefined] while [isValidPrinter] fills it in. *)
Module Printer.
Record t : Type := mk {
  deviceId : option string;
  name : option string
}.

Definition with_name (n : string) (p : t) : t := mk (deviceId p) (Some n).
End Printer.

(** The instance fields of the class. *)
Record DymoServices : Type := {
  config : Cfg.t;
  chunks : list Buffer
}.

(** ** Failures *)

(** What the class throws or rejects with. The source has [Error] objects
    and plain strings; each constructor stands for one of its messages,
    [ExecFailed], [SocketFailed] and [FsFailed] carry the reason a
    collaborator reported, and the last is what reading [__dirname] throws
    where the module system does not bind it. *)
Inductive error : Type :=
| EmptyImageBuffer            (* Error: Empty imageBuffer, cannot print *)
| BadPrintCount (n : Z)       (* Error: PrintCount cannot be 0 or a negative number: n *)
| InvalidInterface (i : string) (* Error: Invalid interface i, valid interfaces are: ... *)
| UnknownInterface (i : string) (* Error: Unknown printer interface configured: i *)
| DeviceNameEmpty             (* Error: Cannot write to device, the device name is empty *)
| CupsDeviceIdMissing         (* Error: Cannot print to CUPS printer, deviceId is not configured. *)
| DymoNotFound                (* Cannot find Dymo LabelWriter. Try to configure manually. *)
| UnsupportedOS (platform : string) (* Cannot list printers, unsupported operating system: platform *)
| ConnectTimeout              (* Timeout connecting to printer. *)
| ExecFailed (reason : string)  (* rejection of execute(...) *)
| SocketFailed (reason : string) (* the socket's error event *)
| FsFailed (reason : string)    (* error of an fs call *)
| DirnameNotDefined.            (* ReferenceError: __dirname is not defined *)

(** The error kinds by which the specification names these failures;
    [Unclassified] is a failure it has no name for. *)
Inductive error_kind : Type :=
| InvalidInput | ConfigError | PrinterNotFound | UnsupportedPlatform
| ConnectionError | Timeout | SpoolerError | IOError | Unclassified.

Definition kind_of (e : error) : error_kind :=
  match e with
  | EmptyImageBuffer | BadPrintCount _ => InvalidInput
  | InvalidInterface _ | UnknownInterface _
  | DeviceNameEmpty | CupsDeviceIdMissing => ConfigError
  | DymoNotFound => PrinterNotFound
  | UnsupportedOS _ => UnsupportedPlatform
  | ConnectTimeout => Timeout
  | ExecFailed _ => SpoolerError
  | SocketFailed _ => ConnectionError
  | FsFailed _ => IOError
  | DirnameNotDefined => Unclassified
  end.

(** How a call ends. [Pending] is a promise that never settles; the only
    function that could produce it is the recursive [sendDataToPrinter]. *)
Inductive outcome (A : Type) : Type :=
| Fulfilled (a : A)
| Rejected (e : error)
| Thrown (e : error)
| Pending.

Arguments Fulfilled {A} a.
Arguments Rejected {A} e.
Arguments Thrown {A} e.
Arguments Pending {A}.

(** A promise that has settled: fulfilled or rejected. *)
Definition settled {A} (o : outcome A) : Prop :=
  match o with
  | Fulfilled _ | Rejected _ => True
  | Thrown _ | Pending => False
  end.

(** ** The outside world *)

(** What the class does to its collaborators, in order. *)
Inductive event : Type :=
| Exec (command : string) (args : list (option string)) (stdin : option Buffer)
| NetConnect (host : string) (port : Z)
| NetWrite (data : Buffer)
| NetEnd
| FsWriteFile (path : string) (data : Buffer)
| FsUnlink (path : string)
| RandomBytes (n : nat).

Record World : Type := {
  files : gmap string Buffer;
  entropy : nat;
  trace : list event
}.

Inductive socket_result : Type :=
| Connected
| SocketError (reason : string)
| SocketTimeout.

(** The collaborators' answers. [execute] resolves with the standard output
    ([inl]) or rejects ([inr]); a write fails when [write_error] gives a
    reason for its path; [randomHex n] is the [n]-th value of
    [crypto.randomBytes(16).toString("hex")]; [join a b] is
    [path.join(a, b)] of node:path, which normalises its result;
    [dirname] is [__dirname], bound in the CommonJS bundle and unbound
    ([None]) where the file is loaded as an ES module. *)
Record Env : Type := {
  platform : string;
  tmpdir : string;
  dirname : option string;
  join : string -> string -> string;
  randomHex : nat -> string;
  execute : string -> list (option string) -> option Buffer -> string + string;
  connect : string -> Z -> socket_result;
  write_error : string -> option string
}.

Definition log (e : event) (w : World) : World :=
  {| files := files w; entropy := entropy w; trace := trace w ++ [e] |}.

(** ** Two small monads: static methods act on the world, instance methods
    on the instance and the world. A failure keeps the state reached. *)

Definition W (A : Type) : Type := World -> outcome A * World.

Definition M (A : Type) : Type := DymoServices -> World -> outcome A * DymoServices * World.

Definition W_ret {A} (a : A) : W A := fun w => (Fulfilled a, w).

Definition W_fail {A} (o : outcome A) : W A := fun w => (o, w).

Definition W_bind {A B} (m : W A) (k : A -> W B) : W B :=
  fun w =>
    match m w with
    | (Fulfilled a, w1) => k a w1
    | (Rejected e, w1) => (Rejected e, w1)
    | (Thrown e, w1) => (Thrown e, w1)
    | (Pending, w1) => (Pending, w1)
    end.

Definition M_ret {A} (a : A) : M A := fun self w => (Fulfilled a, self, w).

Definition M_fail {A} (o : outcome A) : M A := fun self w => (o, self, w).

Definition M_bind {A B} (m : M A) (k : A -> M B) : M B :=
  fun self w =>
    match m self w with
    | (Fulfilled a, self1, w1) => k a self1 w1
    | (Rejected e, self1, w1) => (Rejected e, self1, w1)
    | (Thrown e, self1, w1) => (Thrown e, self1, w1)
    | (Pending, self1, w1) => (Pending, self1, w1)
    end.

(** A static method called from an instance method. *)
Definition lift {A} (m : W A) : M A :=
  fun self w => let '(o, w1) := m w in (o, self, w1).

(** An exception thrown inside a promise executor or a [then] callback
    rejects the promise. *)
Definition as_promise {A} (o : outcome A) : outcome A :=
  match o with
  | Thrown e => Rejected e
  | _ => o
  end.

Declare Scope w_scope.
Declare Scope m_scope.
Delimit Scope w_scope with W.
Delimit Scope m_scope with M.

Notation "x <- m ;; k" := (W_bind m (fun x => k))
  (at level 100, m at next level, right associativity) : w_scope.
Notation "m ;; k" := (W_bind m (fun _ => k))
  (at level 100, right associativity) : w_scope.
Notation "x <- m ;; k" := (M_bind m (fun x => k))
  (at level 100, m at next level, right associativity) : m_scope.
Notation "m ;; k" := (M_bind m (fun _ => k))
  (at level 100, right associativity) : m_scope.

(** ** The class *)

Section Class.

Variable env : Env.

Definition IS_WINDOWS : bool := String.eqb (platform env) "win32".
Definition IS_MACOS : bool := String.eqb (platform env) "darwin".
Definition IS_LINUX : bool := String.eqb (platform env) "linux".

(** *** Collaborators *)

(** [path.join(a, b)] *)
Definition path_join (a b : string) : string := join env a b.

(** Reading [__dirname]: a ReferenceError where it is not bound. *)
Definition read_dirname : W string :=
  match dirname env with
  | Some dir => W_ret dir
  | None => W_fail (Thrown DirnameNotDefined)
  end.

(** [execute(command, args, stdin)] of system-services.js. *)
Definition run_execute (command : string) (args : list (option string))
    (stdin : option Buffer) : W string :=
  fun w =>
    let w1 := log (Exec command args stdin) w in
    match execute env command args stdin with
    | inl stdout => (Fulfilled stdout, w1)
    | inr reason => (Rejected (ExecFailed reason), w1)
    end.

(** The write shared by [fs.writeFile] and [fs.writeFileSync]. *)
Definition fs_write (failure : error -> outcome unit) (path : string)
    (data : Buffer) : W unit :=
  fun w =>
    match write_error env path with
    | Some reason => (failure (FsFailed reason), log (FsWriteFile path data) w)
    | None =>
        (Fulfilled tt,
         {| files := <[path := data]> (files w);
            entropy := entropy w;
            trace := trace w ++ [FsWriteFile path data] |})
    end.

(** [fs.writeFile(path, data, options, callback)]: the error goes to the
    callback. *)
Definition fs_writeFile : string -> Buffer -> W unit := fs_write Rejected.

(** [fs.writeFileSync(path, data, options)]: the error is thrown. *)
Definition fs_writeFileSync : string -> Buffer -> W unit := fs_write Thrown.

(** [fs.unlinkSync(path)]: throws when there is no such file. *)
Definition fs_unlinkSync (path : string) : W unit :=
  fun w =>
    match files w !! path with
    | Some _ =>
        (Fulfilled tt,
         {| files := delete path (files w);
            entropy := entropy w;
            trace := trace w ++ [FsUnlink path] |})
    | None => (Thrown (FsFailed "ENOENT"), log (FsUnlink path) w)
    end.

(** [crypto.randomBytes(16).toString("hex")] *)
Definition randomBytes16_hex : W string :=
  fun w =>
    (Fulfilled (randomHex env (entropy w)),
     {| files := files w;
        entropy := S (entropy w);
        trace := trace w ++ [RandomBytes 16] |}).

(** [new Promise((resolve, reject) => body)]: what [body] throws rejects
    the promise. *)
Definition promise {A} (body : W A) : W A :=
  fun w => let '(o, w1) := body w in (as_promise o, w1).

(** [Promise.allSettled(promises)]: every promise is run, none fails the
    whole. *)
Fixpoint allSettled {A} (promises : list (W A)) : W (list (outcome A)) :=
  match promises with
  | [] => W_ret []
  | p :: rest =>
      fun w =>
        let '(o, w1) := p w in
        (results <- allSettled rest ;; W_ret (o :: results))%W w1
  end.

(** [array.forEach((x, idx) => ...)] where the callback updates [s]. *)
Fixpoint forEach_idx {A St} (f : St -> A -> nat -> St) (l : list A) (idx : nat)
    (s : St) : St :=
  match l with
  | [] => s
  | x :: rest => forEach_idx f rest (S idx) (f s x idx)
  end.

(** *** Static methods *)

Definition INTERFACES : list string :=
  [PRINTER_INTERFACE_NETWORK; PRINTER_INTERFACE_CUPS;
   PRINTER_INTERFACE_WINDOWS; PRINTER_INTERFACE_DEVICE].

(** [INTERFACES.indexOf(i) === -1] *)
Definition indexOf_is_minus1 (i : string) (l : list string) : bool :=
  negb (existsb (String.eqb i) l).

Definition validateConfig (config : Cfg.t) : outcome unit :=
  if truthy (Cfg.interface config)
     && indexOf_is_minus1 (default "" (Cfg.interface config)) INTERFACES
  then Thrown (InvalidInterface (default "" (Cfg.interface config)))
  else Fulfilled tt.

Definition sendDataToNetworkPrinter (buffer : Buffer) (host : option string)
    (port : option Z) : W unit :=
  let host := default "localhost" host in
  let port := default 9100%Z port in
  fun w =>
    let w1 := log (NetConnect host port) w in
    match connect env host port with
    | Connected => (Fulfilled tt, log NetEnd (log (NetWrite buffer) w1))
    | SocketError reason => (Rejected (SocketFailed reason), log NetEnd w1)
    | SocketTimeout => (Rejected ConnectTimeout, log NetEnd w1)
    end.

Definition sendDataToDevicePrinter (buffer : Buffer) (device : option string)
    : W unit :=
  promise
    (if negb (truthy device) then W_fail (Thrown DeviceNameEmpty)
     else fs_writeFile (default "" device) buffer).

Definition sendDataToCupsPrinter (buffer : Buffer) (deviceId : option string)
    : W unit :=
  promise
    (if negb (truthy deviceId) then W_fail (Thrown CupsDeviceIdMissing)
     else
       (_ <- run_execute "lp" [Some "-d"; Some (default "" deviceId)] (Some buffer) ;;
        W_ret tt)%W).

Definition tmpFile (prefix suffix tmpdir_arg : option string) : W string :=
  let prefix := default "tmp." prefix in
  let suffix := default "" suffix in
  let dir := if truthy tmpdir_arg then default "" tmpdir_arg else tmpdir env in
  (hex <- randomBytes16_hex ;;
   W_ret (path_join dir (prefix ++ hex ++ suffix)%string))%W.

Definition sendDataToWindowsPrinter (buffer : Buffer) (deviceId : option string)
    : W unit :=
  promise
    (tmp <- tmpFile None None None ;;
     fs_writeFileSync tmp buffer ;;
     dir <- read_dirname ;;
     _ <- run_execute (path_join dir "RP.exe") [deviceId; Some tmp]
            (Some buffer) ;;
     (* the [then] callback *)
     fs_unlinkSync tmp ;;
     W_ret tt)%W.

(** The [description] computed for one fulfilled status text. *)
Definition description_of (value : string) : option string :=
  List.find nonempty
    (map (fun line => trim (remove_description line))
       (List.filter (fun line => matches_description (trim line))
          (split LF value))).

(** The callback of [results.forEach] in [listPrintersMacLinux]. *)
Definition update_name (printers : list Printer.t) (result : outcome string)
    (idx : nat) : list Printer.t :=
  match result with
  | Fulfilled value =>
      if nonempty value then
        match description_of value with
        | Some description => alter (Printer.with_name description) idx printers
        | None => printers
        end
      else printers
  | _ => printers
  end.

Definition listPrintersMacLinux : W (list Printer.t) :=
  promise
    (stdout <- run_execute "lpstat" [Some "-e"] None ;;
     let printers :=
       map (fun row =>
              Printer.mk (Some (trim row)) (Some (trim (replace_underscores row))))
         (List.filter (fun row => nonempty (trim row)) (split LF stdout)) in
     let promises :=
       map (fun printer =>
              run_execute "lpstat" [Some "-l"; Some "-p"; Printer.deviceId printer] None)
         printers in
     results <- allSettled promises ;;
     W_ret (forEach_idx update_name results 0 printers))%W.

(** The callback of [some] in [isValidPrinter], run over the lines until
    it returns true. *)
Fixpoint some_line (lines : list string) (printerData : Printer.t)
    : bool * Printer.t :=
  match lines with
  | [] => (false, printerData)
  | line :: rest =>
      let parts := map trim (split ":" line) in
      let label := hd "" parts in
      let value := nth_error parts 1 in
      let lowerLabel := toLowerCase label in
      let printerData :=
        if String.eqb lowerLabel "deviceid"
        then Printer.mk value (Printer.name printerData) else printerData in
      let printerData :=
        if String.eqb lowerLabel "name"
        then Printer.mk (Printer.deviceId printerData) value else printerData in
      if truthy (Printer.deviceId printerData) && truthy (Printer.name printerData)
      then (true, printerData)
      else some_line rest printerData
  end.

Definition isValidPrinter (printer : string) : bool * Printer.t :=
  some_line (split_lines printer) (Printer.mk (Some "") (Some "")).

Definition stdoutHandler (stdout : string) : list Printer.t :=
  fold_left
    (fun (printers : list Printer.t) printer =>
       let '(isValid, printerData) := isValidPrinter printer in
       if isValid then printers ++ [printerData] else printers)
    (List.filter nonempty (map trim (split_blocks stdout)))
    [].

Definition listPrintersWindows : W (list Printer.t) :=
  promise
    (stdout <- run_execute "Powershell.exe"
                 [Some "-Command";
                  Some "Get-CimInstance Win32_Printer -Property DeviceID,Name"]
                 None ;;
     W_ret (stdoutHandler stdout))%W.

(** *** Instance methods *)

Definition constructor (config : option Cfg.t) : outcome DymoServices :=
  match config with
  | Some config =>
      let this_config := Cfg.assign Cfg.empty config in
      match validateConfig this_config with
      | Fulfilled _ => Fulfilled {| config := this_config; chunks := [] |}
      | Rejected e => Rejected e
      | Thrown e => Thrown e
      | Pending => Pending
      end
  | None => Fulfilled {| config := Cfg.empty; chunks := [] |}
  end.

Definition listPrinters : W (list Printer.t) :=
  if IS_WINDOWS then listPrintersWindows
  else if IS_MACOS || IS_LINUX then listPrintersMacLinux
  else W_fail (Rejected (UnsupportedOS (platform env))).

Definition clear : M unit :=
  fun self w => (Fulfilled tt, {| config := config self; chunks := [] |}, w).

Definition append (buff : Buffer) : M unit :=
  fun self w =>
    (Fulfilled tt, {| config := config self; chunks := chunks self ++ [buff] |}, w).

Definition init (labelLineWidth labelLength : Z) : M unit :=
  (clear ;;
   append CMD_START_ESC ;;
   append CMD_RESET ;;
   append CMD_NO_DOT_TAB ;;
   let labelLineWidthBytes := Math_ceil_div labelLineWidth 8 in
   append (Buffer_from [ESC; charCodeAt0 "D"; labelLineWidthBytes]) ;;
   let lsb := js_and labelLength 0xff in
   let msb := js_and (js_shr labelLength 8) 0xff in
   append (Buffer_from [ESC; charCodeAt0 "L"; msb; lsb]) ;;
   append CMD_TEXT_SPEED_MODE ;;
   append CMD_DENSITY_NORMAL)%M.

(** The callback of [printers.find] in [sendDataToPrinter]. *)
Definition is_dymo (printer : Printer.t) : bool :=
  match Printer.name printer with
  | Some name => nonempty name && includes "dymo" (toLowerCase name)
  | None => false
  end.

(** [fuel] bounds the depth of the recursive call; two levels are all the
    method ever uses ([sendDataToPrinter_fuel] below). *)
Fixpoint sendDataToPrinter_rec (fuel : nat) : M unit :=
  match fuel with
  | O => M_fail Pending
  | S fuel =>
      fun self w =>
        let buffer := Buffer_concat (chunks self) in
        let printerInterface := Cfg.interface (config self) in
        if negb (truthy printerInterface) then
          (* Try to guess what printer to use. *)
          match listPrinters w with
          | (Fulfilled printers, w1) =>
              (* Use the first match. *)
              match List.find is_dymo printers with
              | None => (Rejected DymoNotFound, self, w1)
              | Some printer =>
                  (* Found a Dymo label writer. *)
                  let this_config :=
                    Cfg.mk
                      (Some (if IS_WINDOWS then PRINTER_INTERFACE_WINDOWS
                             else PRINTER_INTERFACE_CUPS))
                      (Cfg.host (config self))
                      (Cfg.port (config self))
                      (Printer.deviceId printer)
                      (Cfg.device (config self)) in
                  sendDataToPrinter_rec fuel
                    {| config := this_config; chunks := chunks self |} w1
              end
          | (Rejected e, w1) | (Thrown e, w1) => (Rejected e, self, w1)
          | (Pending, w1) => (Pending, self, w1)
          end
        else
          let printerInterface := default "" printerInterface in
          if String.eqb printerInterface PRINTER_INTERFACE_NETWORK then
            lift (sendDataToNetworkPrinter buffer (Cfg.host (config self))
                    (Cfg.port (config self))) self w
          else if String.eqb printerInterface PRINTER_INTERFACE_CUPS then
            lift (sendDataToCupsPrinter buffer (Cfg.deviceId (config self))) self w
          else if String.eqb printerInterface PRINTER_INTERFACE_WINDOWS then
            lift (sendDataToWindowsPrinter buffer (Cfg.deviceId (config self))) self w
          else if String.eqb printerInterface PRINTER_INTERFACE_DEVICE then
            lift (sendDataToDevicePrinter buffer (Cfg.device (config self))) self w
          else (Rejected (UnknownInterface printerInterface), self, w)
  end.

Definition sendDataToPrinter : M unit := sendDataToPrinter_rec 2.

(** The inner loop of [printBitmap]: one framed chunk per row. *)
Fixpoint append_rows (imageBuffer : list (list Z)) : M unit :=
  match imageBuffer with
  | [] => M_ret tt
  | row :: rest => (append (Buffer_from (0x16%Z :: row)) ;; append_rows rest)%M
  end.

(** The outer loop of [printBitmap], [for (count = 1; count <= printCount;
    count++)], entered at [count]; [fuel] bounds its iterations. *)
Fixpoint print_copies (fuel : nat) (imageBuffer : list (list Z))
    (printCount count : Z) : M unit :=
  if (count <=? printCount)%Z then
    match fuel with
    | O => M_fail Pending
    | S fuel =>
        (append_rows imageBuffer ;;
         (if (count =? printCount)%Z then append CMD_FULL_FORM_FEED
          else append CMD_SHORT_FORM_FEED) ;;
         print_copies fuel imageBuffer printCount (count + 1))%M
    end
  else M_ret tt.

Definition printBitmap (imageBuffer : option (list (list Z)))
    (printCount : option Z) : M unit :=
  let printCount := default 1%Z printCount in
  match imageBuffer with
  | Some ((row0 :: _) as imageBuffer) =>
      if (printCount <=? 0)%Z then M_fail (Thrown (BadPrintCount printCount))
      else
        let labelLineWidth := (Z.of_nat (length row0) * 8)%Z in
        let labelLength := Z.of_nat (length imageBuffer) in
        (init labelLineWidth labelLength ;;
         print_copies (Z.to_nat printCount) imageBuffer printCount 1 ;;
         sendDataToPrinter)%M
  | _ => M_fail (Thrown EmptyImageBuffer)
  end.

End Class.

(** ** Test fixtures: a Linux host with CUPS, a Windows host, and an
    unsupported host *)

Definition lpstat_e_output : string :=
  ("DYMO_LabelWriter_450" ++ String LF ("Office_Laser" ++ String LF ""))%string.

Definition lpstat_l_output : string :=
  ("printer DYMO_LabelWriter_450 is idle." ++
   String LF ("        Description: DYMO LabelWriter 450 Turbo" ++ String LF ""))%string.

(** [lpstat -e] lists two destinations; only the first has a description,
    the status lookup of the second fails. *)
Definition linux_env : Env :=
  {| platform := "linux";
     tmpdir := "/tmp";
     dirname := Some "/app/dist";
     join := fun a b => (a ++ "/" ++ b)%string;
     randomHex := fun _ => "00112233445566778899aabbccddeeff";
     execute := fun command args _ =>
       if String.eqb command "lpstat" then
         match args with
         | [Some "-e"] => inl lpstat_e_output
         | [Some "-l"; Some "-p"; Some "DYMO_LabelWriter_450"] => inl lpstat_l_output
         | _ => inr "lpstat: Invalid destination name"
         end
       else inl "";
     connect := fun _ _ => Connected;
     write_error := fun _ => None |}.

(** A Windows host that runs the CommonJS bundle from [C:\app\dist], on
    which the raw-print helper fails when [helper_ok] is false. *)
Definition windows_env (helper_ok : bool) : Env :=
  {| platform := "win32";
     tmpdir := "C:\Temp";
     dirname := Some "C:\app\dist";
     join := fun a b => (a ++ "\" ++ b)%string;
     randomHex := fun _ => "00112233445566778899aabbccddeeff";
     execute := fun command _ _ =>
       if String.eqb command "C:\app\dist\RP.exe" then
         if helper_ok then inl "" else inr "RP.exe exited with code 1"
       else inl "";
     connect := fun _ _ => Connected;
     write_error := fun _ => None |}.

Definition freebsd_env : Env :=
  {| platform := "freebsd";
     tmpdir := "/tmp";
     dirname := Some "/app/dist";
     join := fun a b => (a ++ "/" ++ b)%string;
     randomHex := fun _ => "00112233445566778899aabbccddeeff";
     execute := fun _ _ _ => inl "";
     connect := fun _ _ => Connected;
     write_error := fun _ => None |}.

Definition empty_world : World := {| files := ∅; entropy := 0; trace := [] |}.

Definition new_instance (config : Cfg.t) : DymoServices :=
  {| config := config; chunks := [] |}.

(** * Properties *)

(** ** Bytes and the 32-bit operators *)

Lemma to_uint8_mod (n : Z) : to_uint8 n = (n mod 256)%Z.
Proof.
  unfold to_uint8. change 255%Z with (Z.ones 8).
  rewrite Z.land_ones by lia. reflexivity.
Qed.

Lemma to_uint8_byte (b : Z) : is_byte b -> to_uint8 b = b.
Proof.
  intros Hb. rewrite to_uint8_mod. apply Z.mod_small. exact Hb.
Qed.

Lemma Buffer_from_bytes (l : list Z) : Forall is_byte l -> Buffer_from l = l.
Proof.
  unfold Buffer_from. induction 1 as [|b l Hb _ IH]; simpl.
  - reflexivity.
  - rewrite (to_uint8_byte b Hb), IH. reflexivity.
Qed.

(** Bringing a number into the 32-bit range moves it by a multiple of 2^32. *)
Lemma to_int32_shift (n : Z) : exists q : Z, to_int32 n = (n + q * 2 ^ 32)%Z.
Proof.
  unfold to_int32. exists (- ((n + 2 ^ 31) / 2 ^ 32))%Z.
  rewrite Z.mod_eq by lia. lia.
Qed.

Lemma js_and_0xff (n : Z) : js_and n 0xff = (n mod 256)%Z.
Proof.
  unfold js_and. change (to_int32 255) with (Z.ones 8).
  rewrite Z.land_ones by lia.
  destruct (to_int32_shift n) as [q ->].
  change (2 ^ 8)%Z with 256%Z.
  replace (n + q * 2 ^ 32)%Z with (n + (q * 2 ^ 24) * 256)%Z by lia.
  apply Z_mod_plus_full.
Qed.

Lemma js_shr_8_and_0xff (n : Z) :
  js_and (js_shr n 8) 0xff = ((n / 256) mod 256)%Z.
Proof.
  rewrite js_and_0xff. unfold js_shr.
  change (8 mod 32)%Z with 8%Z.
  rewrite Z.shiftr_div_pow2 by lia.
  destruct (to_int32_shift n) as [q ->].
  change (2 ^ 8)%Z with 256%Z.
  replace (n + q * 2 ^ 32)%Z with (n + (q * 2 ^ 24) * 256)%Z by lia.
  rewrite Z.div_add by lia.
  replace (n / 256 + q * 2 ^ 24)%Z with (n / 256 + (q * 2 ^ 16) * 256)%Z by lia.
  apply Z_mod_plus_full.
Qed.

(** The two operators agree with the bit operations on unbounded integers,
    for the masks the encoder uses. *)
Lemma js_and_0xff_land (n : Z) : js_and n 0xff = Z.land n 0xff.
Proof. rewrite js_and_0xff. symmetry. apply to_uint8_mod. Qed.

Lemma js_shr_8_and_0xff_land (n : Z) :
  js_and (js_shr n 8) 0xff = Z.land (Z.shiftr n 8) 0xff.
Proof.
  rewrite js_shr_8_and_0xff.
  rewrite Z.shiftr_div_pow2 by lia.
  symmetry. apply to_uint8_mod.
Qed.

Lemma Math_ceil_div_mul8 (n : Z) : Math_ceil_div (n * 8) 8 = n.
Proof.
  unfold Math_ceil_div.
  replace (- (n * 8))%Z with ((- n) * 8)%Z by lia.
  rewrite Z.div_mul by lia. lia.
Qed.

(** ** The command buffer *)

(** A raster row as it is framed: the marker byte, then the row. *)
Definition framed (row : list Z) : Buffer := Buffer_from (0x16%Z :: row).

Lemma framed_bytes (row : list Z) :
  Forall is_byte row -> framed row = 0x16%Z :: row.
Proof.
  intros Hrow. unfold framed. apply Buffer_from_bytes.
  constructor; [unfold is_byte; lia | exact Hrow].
Qed.

Lemma map_framed_bytes (rows : list (list Z)) :
  Forall (Forall is_byte) rows ->
  map framed rows = map (fun row => 0x16%Z :: row) rows.
Proof.
  induction 1 as [|row rows Hrow _ IH]; simpl.
  - reflexivity.
  - rewrite (framed_bytes row Hrow), IH. reflexivity.
Qed.

(** The chunks [init] leaves, whatever the buffer held before. *)
Definition init_chunks (labelLineWidth labelLength : Z) : list Buffer :=
  [CMD_START_ESC; CMD_RESET; CMD_NO_DOT_TAB;
   Buffer_from [ESC; charCodeAt0 "D"; Math_ceil_div labelLineWidth 8];
   Buffer_from [ESC; charCodeAt0 "L";
                js_and (js_shr labelLength 8) 0xff; js_and labelLength 0xff];
   CMD_TEXT_SPEED_MODE; CMD_DENSITY_NORMAL].

(** The chunks the copy loop appends for [S k] copies. *)
Definition copies_chunks (rows : list Buffer) (k : nat) : list Buffer :=
  concat (replicate k (rows ++ [CMD_SHORT_FORM_FEED]))
  ++ rows ++ [CMD_FULL_FORM_FEED].

Section Encoder.

Variable env : Env.

Lemma init_spec (labelLineWidth labelLength : Z) (self : DymoServices) (w : World) :
  init labelLineWidth labelLength self w
  = (Fulfilled tt,
     {| config := config self; chunks := init_chunks labelLineWidth labelLength |},
     w).
Proof. reflexivity. Qed.

Lemma append_rows_spec (rows : list (list Z)) (self : DymoServices) (w : World) :
  append_rows rows self w
  = (Fulfilled tt,
     {| config := config self; chunks := chunks self ++ map framed rows |},
     w).
Proof.
  revert self. induction rows as [|row rows IH]; intros self.
  - simpl. unfold M_ret. rewrite app_nil_r. destruct self; reflexivity.
  - simpl. unfold M_bind, append at 1. rewrite IH. simpl.
    rewrite <- app_assoc. reflexivity.
Qed.

(** The copy loop, entered with [S k] copies still to print, runs to its
    end when it has fuel for them. *)
Lemma print_copies_spec (rows : list (list Z)) (printCount : Z) (k : nat) :
  forall (fuel : nat) (count : Z) (self : DymoServices) (w : World),
    (count + Z.of_nat k = printCount)%Z ->
    (S k <= fuel)%nat ->
    print_copies fuel rows printCount count self w
    = (Fulfilled tt,
       {| config := config self;
          chunks := chunks self ++ copies_chunks (map framed rows) k |},
       w).
Proof.
  induction k as [|k IH]; intros fuel count self w Hcount Hfuel;
    (destruct fuel as [|fuel]; [lia|]); simpl.
  - replace count with printCount by lia.
    rewrite Z.leb_refl. unfold M_bind at 1. rewrite append_rows_spec.
    unfold M_bind at 1. rewrite Z.eqb_refl. unfold append at 1. simpl.
    destruct fuel; simpl;
      (replace (printCount + 1 <=? printCount)%Z with false
         by (symmetry; apply Z.leb_gt; lia));
      unfold M_ret, copies_chunks; simpl;
      rewrite <- app_assoc; reflexivity.
  - replace (count <=? printCount)%Z with true by (symmetry; apply Z.leb_le; lia).
    unfold M_bind at 1. rewrite append_rows_spec.
    unfold M_bind at 1.
    replace (count =? printCount)%Z with false by (symmetry; apply Z.eqb_neq; lia).
    unfold append at 1. simpl.
    rewrite (IH fuel (count + 1)%Z) by lia. simpl.
    unfold copies_chunks. simpl.
    rewrite <- !app_assoc. reflexivity.
Qed.

End Encoder.

(** ** The dispatcher *)

Section Dispatcher.

Variable env : Env.

Lemma lift_instance {A} (m : W A) (self : DymoServices) (w : World) :
  snd (fst (lift m self w)) = self.
Proof. unfold lift. destruct (m w). reflexivity. Qed.

(** Dispatch never touches the command buffer. *)
Lemma sendDataToPrinter_rec_chunks (fuel : nat) :
  forall (self : DymoServices) (w : World),
    chunks (snd (fst (sendDataToPrinter_rec env fuel self w))) = chunks self.
Proof.
  induction fuel as [|fuel IH]; intros self w; simpl.
  - reflexivity.
  - destruct (negb (truthy (Cfg.interface (config self)))).
    + destruct (listPrinters env w) as [[printers|e|e|] w1]; try reflexivity.
      destruct (List.find (is_dymo) printers); [|reflexivity].
      rewrite IH. reflexivity.
    + repeat match goal with
             | |- context [if ?b then _ else _] => destruct b
             end;
        try rewrite lift_instance; reflexivity.
Qed.

(** With an interface configured, dispatch is one call of a transport,
    whatever the fuel. *)
Lemma sendDataToPrinter_rec_configured (fuel : nat) (self : DymoServices)
    (w : World) :
  truthy (Cfg.interface (config self)) = true ->
  sendDataToPrinter_rec env (S fuel) self w = sendDataToPrinter_rec env 1 self w.
Proof. intros Hi. simpl. rewrite Hi. reflexivity. Qed.

(** Two levels of the recursion are all dispatch uses. *)
Lemma sendDataToPrinter_fuel (fuel : nat) (self : DymoServices) (w : World) :
  (2 <= fuel)%nat ->
  sendDataToPrinter_rec env fuel self w = sendDataToPrinter env self w.
Proof.
  intros Hfuel. destruct fuel as [|[|fuel]]; try lia.
  unfold sendDataToPrinter.
  cbn [sendDataToPrinter_rec].
  destruct (negb (truthy (Cfg.interface (config self)))); [|reflexivity].
  destruct (listPrinters env w) as [[printers|e|e|] w1]; try reflexivity.
  destruct (List.find (is_dymo) printers); [|reflexivity].
  apply sendDataToPrinter_rec_configured.
  destruct (IS_WINDOWS env); reflexivity.
Qed.

(** The transports and the discovery settle: their promise is fulfilled
    or rejected, it neither stays pending nor throws. *)
Lemma run_execute_settles command args stdin (w : World) :
  settled (fst (run_execute env command args stdin w)).
Proof. unfold run_execute. destruct (execute env command args stdin); exact I. Qed.

Lemma promise_settles {A} (body : W A) (w : World) :
  fst (body w) <> Pending -> settled (fst (promise body w)).
Proof.
  unfold promise. destruct (body w) as [[a|e|e|] w1]; simpl; congruence || exact (fun _ => I).
Qed.

Lemma settled_not_Pending {A} (o : outcome A) : settled o -> o <> Pending.
Proof. destruct o; simpl; congruence || contradiction. Qed.

Lemma W_bind_not_Pending {A B} (m : W A) (k : A -> W B) (w : World) :
  fst (m w) <> Pending ->
  (forall a w1, fst (k a w1) <> Pending) ->
  fst (W_bind m k w) <> Pending.
Proof.
  intros Hm Hk. unfold W_bind.
  destruct (m w) as [[a|e|e|] w1]; simpl in *;
    [apply Hk | discriminate | discriminate | congruence].
Qed.

Lemma fs_write_not_Pending failure path data (w : World) :
  (forall e, failure e <> Pending) ->
  fst (fs_write env failure path data w) <> Pending.
Proof.
  intros Hf. unfold fs_write.
  destruct (write_error env path); simpl; [apply Hf | discriminate].
Qed.

Lemma sendDataToNetworkPrinter_settles buffer host port (w : World) :
  settled (fst (sendDataToNetworkPrinter env buffer host port w)).
Proof.
  unfold sendDataToNetworkPrinter.
  destruct (connect env _ _); exact I.
Qed.

Lemma sendDataToDevicePrinter_settles buffer device (w : World) :
  settled (fst (sendDataToDevicePrinter env buffer device w)).
Proof.
  unfold sendDataToDevicePrinter. apply promise_settles.
  destruct (negb (truthy device)); [discriminate|].
  apply fs_write_not_Pending. discriminate.
Qed.

Lemma sendDataToCupsPrinter_settles buffer deviceId (w : World) :
  settled (fst (sendDataToCupsPrinter env buffer deviceId w)).
Proof.
  unfold sendDataToCupsPrinter. apply promise_settles.
  destruct (negb (truthy deviceId)); [discriminate|].
  apply W_bind_not_Pending;
    [apply settled_not_Pending, run_execute_settles | discriminate].
Qed.

Lemma sendDataToWindowsPrinter_settles buffer deviceId (w : World) :
  settled (fst (sendDataToWindowsPrinter env buffer deviceId w)).
Proof.
  unfold sendDataToWindowsPrinter. apply promise_settles.
  apply W_bind_not_Pending.
  { unfold tmpFile. apply W_bind_not_Pending; discriminate. }
  intros tmp w1. apply W_bind_not_Pending.
  { apply fs_write_not_Pending. discriminate. }
  intros _ w2. apply W_bind_not_Pending.
  { unfold read_dirname. destruct (dirname env); discriminate. }
  intros dir w3.
  apply W_bind_not_Pending; [apply settled_not_Pending, run_execute_settles|].
  intros _ w4. apply W_bind_not_Pending; [|discriminate].
  unfold fs_unlinkSync. destruct (files w4 !! tmp); discriminate.
Qed.

Lemma allSettled_not_Pending {A} (promises : list (W A)) :
  forall w : World, fst (allSettled promises w) <> Pending.
Proof.
  induction promises as [|p rest IH]; intros w; simpl.
  - discriminate.
  - destruct (p w) as [o w1]. apply W_bind_not_Pending; [apply IH | discriminate].
Qed.

Lemma listPrinters_settles (w : World) : settled (fst (listPrinters env w)).
Proof.
  unfold listPrinters.
  destruct (IS_WINDOWS env); [|destruct (IS_MACOS env || IS_LINUX env)].
  - unfold listPrintersWindows. apply promise_settles.
    apply W_bind_not_Pending;
      [apply settled_not_Pending, run_execute_settles | discriminate].
  - unfold listPrintersMacLinux. apply promise_settles.
    apply W_bind_not_Pending; [apply settled_not_Pending, run_execute_settles|].
    intros stdout w1.
    apply W_bind_not_Pending; [apply allSettled_not_Pending | discriminate].
  - exact I.
Qed.

Lemma lift_settles {A} (m : W A) (self : DymoServices) (w : World) :
  settled (fst (m w)) -> settled (fst (fst (lift m self w))).
Proof. unfold lift. destruct (m w). exact id. Qed.

Lemma sendDataToPrinter_rec_1_settles (self : DymoServices) (w : World) :
  truthy (Cfg.interface (config self)) = true ->
  settled (fst (fst (sendDataToPrinter_rec env 1 self w))).
Proof.
  intros Hi. simpl. rewrite Hi. simpl.
  repeat match goal with
         | |- context [if ?b then _ else _] => destruct b
         end;
    try (apply lift_settles);
    auto using sendDataToNetworkPrinter_settles, sendDataToCupsPrinter_settles,
      sendDataToWindowsPrinter_settles, sendDataToDevicePrinter_settles.
  exact I.
Qed.

(** Dispatch always settles. *)
Lemma sendDataToPrinter_settles (self : DymoServices) (w : World) :
  settled (fst (fst (sendDataToPrinter env self w))).
Proof.
  unfold sendDataToPrinter.
  destruct (truthy (Cfg.interface (config self))) eqn:Hi.
  - rewrite (sendDataToPrinter_rec_configured 1 self w Hi).
    apply sendDataToPrinter_rec_1_settles. exact Hi.
  - cbn [sendDataToPrinter_rec]. rewrite Hi. cbn [negb].
    pose proof (listPrinters_settles w) as Hl.
    destruct (listPrinters env w) as [[printers|e|e|] w1]; simpl in Hl;
      try contradiction; try exact I.
    destruct (List.find (is_dymo) printers); [|exact I].
    apply sendDataToPrinter_rec_1_settles.
    destruct (IS_WINDOWS env); reflexivity.
Qed.

End Dispatcher.

(** ** The print job *)

(** The chunks [init] appends, byte by byte, for a line of [n] bytes and a
    label of [len] lines. *)
Lemma init_chunks_bytes (n len : Z) :
  init_chunks (n * 8) len
  = [replicate 313 0x1b%Z; [0x1b; 0x2a]%Z; [0x1b; 0x42; 0x00]%Z;
     [0x1b; 0x44; n mod 256]%Z;
     [0x1b; 0x4c; (len / 256) mod 256; len mod 256]%Z;
     [0x1b; 0x68]%Z; [0x1b; 0x65]%Z].
Proof.
  unfold init_chunks.
  rewrite Math_ceil_div_mul8.
  unfold Buffer_from at 1 2. cbn [map].
  rewrite (to_uint8_mod n).
  rewrite (to_uint8_mod (js_and (js_shr len 8) 255)), js_shr_8_and_0xff, Z.mod_mod by lia.
  rewrite (to_uint8_mod (js_and len 255)), js_and_0xff, Z.mod_mod by lia.
  reflexivity.
Qed.

(** The job as the specification lays it out: the preamble, the reset, the
    geometry and mode commands, then every copy's framed rows and its form
    feed. *)
Definition expected_job (imageBuffer : list (list Z)) (printCount : Z)
    : list Buffer :=
  let width := Z.of_nat (length (hd [] imageBuffer)) in
  let len := Z.of_nat (length imageBuffer) in
  let raster := map (fun row => 0x16%Z :: row) imageBuffer in
  [replicate 313 0x1b%Z; [0x1b; 0x2a]%Z; [0x1b; 0x42; 0x00]%Z;
   [0x1b; 0x44; width mod 256]%Z;
   [0x1b; 0x4c; (len / 256) mod 256; len mod 256]%Z;
   [0x1b; 0x68]%Z; [0x1b; 0x65]%Z]
  ++ concat (replicate (Z.to_nat printCount - 1) (raster ++ [[0x1b; 0x47]%Z]))
  ++ raster ++ [[0x1b; 0x45]%Z].

Section PrintJob.

Variable env : Env.

(** A valid job: the buffer is rebuilt from scratch and handed to the
    dispatcher. *)
Lemma printBitmap_valid (imageBuffer : list (list Z)) (printCount : Z)
    (self : DymoServices) (w : World) :
  imageBuffer <> [] ->
  (1 <= printCount)%Z ->
  printBitmap env (Some imageBuffer) (Some printCount) self w
  = sendDataToPrinter env
      {| config := config self;
         chunks :=
           init_chunks (Z.of_nat (length (hd [] imageBuffer)) * 8)
             (Z.of_nat (length imageBuffer))
           ++ copies_chunks (map framed imageBuffer) (Z.to_nat printCount - 1) |}
      w.
Proof.
  intros Hne Hcount.
  destruct imageBuffer as [|row0 rest]; [congruence|].
  unfold printBitmap.
  change (default 1%Z (Some printCount)) with printCount. cbn [hd].
  replace (printCount <=? 0)%Z with false by (symmetry; apply Z.leb_gt; lia).
  unfold M_bind at 1. rewrite init_spec.
  unfold M_bind at 1.
  rewrite (print_copies_spec (row0 :: rest) printCount (Z.to_nat printCount - 1))
    by lia.
  reflexivity.
Qed.

Lemma printBitmap_valid_chunks (imageBuffer : list (list Z)) (printCount : Z)
    (self : DymoServices) (w : World) :
  imageBuffer <> [] ->
  (1 <= printCount)%Z ->
  chunks (snd (fst (printBitmap env (Some imageBuffer) (Some printCount) self w)))
  = init_chunks (Z.of_nat (length (hd [] imageBuffer)) * 8)
      (Z.of_nat (length imageBuffer))
    ++ copies_chunks (map framed imageBuffer) (Z.to_nat printCount - 1).
Proof.
  intros Hne Hcount.
  rewrite printBitmap_valid by assumption.
  unfold sendDataToPrinter. rewrite sendDataToPrinter_rec_chunks. reflexivity.
Qed.

(** An invalid job is refused before anything is done. *)
Lemma printBitmap_invalid (imageBuffer : option (list (list Z)))
    (printCount : Z) (self : DymoServices) (w : World) :
  imageBuffer = None \/ imageBuffer = Some [] \/ (printCount <= 0)%Z ->
  exists e : error,
    printBitmap env imageBuffer (Some printCount) self w = (Thrown e, self, w)
    /\ kind_of e = InvalidInput.
Proof.
  intros H. unfold printBitmap.
  change (default 1%Z (Some printCount)) with printCount.
  destruct imageBuffer as [[|row0 rest]|].
  - exists EmptyImageBuffer. split; reflexivity.
  - destruct H as [H|[H|H]]; try discriminate.
    replace (printCount <=? 0)%Z with true by (symmetry; apply Z.leb_le; lia).
    exists (BadPrintCount printCount). split; reflexivity.
  - exists EmptyImageBuffer. split; reflexivity.
Qed.

(** C1: for a non-empty matrix of bytes and a copy count of at least one,
    [printBitmap] hands the dispatcher exactly the chunks of
    [expected_job]: 313 escape bytes, RESET, NO_DOT_TAB,
    SET_BYTES_PER_LINE, SET_LABEL_LENGTH, TEXT_SPEED_MODE, DENSITY_NORMAL,
    then for every copy the rows, each behind the marker 0x16, and
    SHORT_FORM_FEED after every copy but the last, which FULL_FORM_FEED
    follows. What the buffer held before the call is gone, and the buffer
    is left holding these chunks. *)
Theorem printBitmap_assembles_job (imageBuffer : list (list Z))
    (printCount : Z) (self : DymoServices) (w : World) :
  imageBuffer <> [] ->
  (1 <= printCount)%Z ->
  Forall (Forall is_byte) imageBuffer ->
  printBitmap env (Some imageBuffer) (Some printCount) self w
  = sendDataToPrinter env
      {| config := config self; chunks := expected_job imageBuffer printCount |} w
  /\ chunks (snd (fst (printBitmap env (Some imageBuffer) (Some printCount) self w)))
     = expected_job imageBuffer printCount.
Proof.
  intros Hne Hcount Hbytes.
  assert (Hjob :
    init_chunks (Z.of_nat (length (hd [] imageBuffer)) * 8)
      (Z.of_nat (length imageBuffer))
    ++ copies_chunks (map framed imageBuffer) (Z.to_nat printCount - 1)
    = expected_job imageBuffer printCount).
  { rewrite init_chunks_bytes, (map_framed_bytes imageBuffer Hbytes).
    reflexivity. }
  split.
  - rewrite printBitmap_valid by assumption. rewrite Hjob. reflexivity.
  - rewrite printBitmap_valid_chunks by assumption. exact Hjob.
Qed.

(** C5: the fifth chunk of a job is SET_LABEL_LENGTH, [1B 4C msb lsb] with
    [lsb = len & 0xFF] and [msb = (len >> 8) & 0xFF] for the number [len]
    of rows; 1052 rows give the parameter bytes 04 1C. *)
Theorem printBitmap_label_length (imageBuffer : list (list Z))
    (printCount : Z) (self : DymoServices) (w : World) :
  imageBuffer <> [] ->
  (1 <= printCount)%Z ->
  let len := Z.of_nat (length imageBuffer) in
  let job :=
    chunks (snd (fst (printBitmap env (Some imageBuffer) (Some printCount) self w))) in
  job !! 4%nat = Some [0x1b; 0x4c; Z.land (Z.shiftr len 8) 0xff; Z.land len 0xff]%Z
  /\ (length imageBuffer = 1052%nat -> job !! 4%nat = Some [0x1b; 0x4c; 0x04; 0x1c]%Z).
Proof.
  intros Hne Hcount len job.
  assert (Hjob : job !! 4%nat
                 = Some [0x1b; 0x4c; Z.land (Z.shiftr len 8) 0xff; Z.land len 0xff]%Z).
  { subst job. rewrite printBitmap_valid_chunks by assumption.
    rewrite init_chunks_bytes.
    fold (to_uint8 len). fold (to_uint8 (Z.shiftr len 8)).
    rewrite !to_uint8_mod, Z.shiftr_div_pow2 by lia.
    reflexivity. }
  split; [exact Hjob|].
  intros H1052. rewrite Hjob. subst len. rewrite H1052. reflexivity.
Qed.

(** C6: [printBitmap] throws an InvalidInput error when the matrix is
    null, undefined or has no rows, and when the copy count is zero or
    negative; the instance and the world are as before, so no transport,
    and no collaborator at all, has been called. *)
Theorem printBitmap_rejects_invalid_input (imageBuffer : option (list (list Z)))
    (printCount : Z) (self : DymoServices) (w : World) :
  imageBuffer = None \/ imageBuffer = Some [] \/ (printCount <= 0)%Z ->
  exists e : error,
    fst (fst (printBitmap env imageBuffer (Some printCount) self w)) = Thrown e
    /\ kind_of e = InvalidInput
    /\ snd (printBitmap env imageBuffer (Some printCount) self w) = w
    /\ trace (snd (printBitmap env imageBuffer (Some printCount) self w)) = trace w.
Proof.
  intros H.
  destruct (printBitmap_invalid imageBuffer printCount self w H) as (e & Hr & Hk).
  exists e. rewrite Hr. repeat split; assumption.
Qed.

(** C10: when [printBitmap] fails with an InvalidInput error, the chunks of
    the instance are those it held before the call (and so is its
    configuration): the checks come before [init] clears the buffer. *)
Theorem printBitmap_invalid_input_keeps_chunks
    (imageBuffer : option (list (list Z))) (printCount : option Z)
    (self : DymoServices) (w : World) (e : error) :
  fst (fst (printBitmap env imageBuffer printCount self w)) = Thrown e ->
  kind_of e = InvalidInput ->
  chunks (snd (fst (printBitmap env imageBuffer printCount self w))) = chunks self
  /\ snd (fst (printBitmap env imageBuffer printCount self w)) = self.
Proof.
  intros Hthrown _.
  destruct imageBuffer as [[|row0 rest]|]; try (split; reflexivity).
  destruct (Z_le_gt_dec (default 1%Z printCount) 0) as [Hle|Hgt].
  - unfold printBitmap.
    replace (default 1 printCount <=? 0)%Z with true
      by (symmetry; apply Z.leb_le; exact Hle).
    split; reflexivity.
  - exfalso.
    assert (Hsome : printCount = Some (default 1%Z printCount) \/ printCount = None)
      by (destruct printCount; auto).
    assert (Hv : printBitmap env (Some (row0 :: rest)) printCount self w
                 = printBitmap env (Some (row0 :: rest))
                     (Some (default 1%Z printCount)) self w)
      by (destruct printCount; reflexivity).
    rewrite Hv, printBitmap_valid in Hthrown by (congruence || lia).
    pose proof (sendDataToPrinter_settles env
      {| config := config self;
         chunks :=
           init_chunks (Z.of_nat (length (hd [] (row0 :: rest))) * 8)
             (Z.of_nat (length (row0 :: rest)))
           ++ copies_chunks (map framed (row0 :: rest))
                (Z.to_nat (default 1%Z printCount) - 1) |} w) as Hs.
    rewrite Hthrown in Hs. exact Hs.
Qed.

End PrintJob.

Definition network_config : Cfg.t :=
  Cfg.mk (Some PRINTER_INTERFACE_NETWORK) (Some "192.168.1.20") None None None.

(** A label of 300 dots: 38 bytes a line, one line per row. *)
Definition sample_matrix (rows : nat) : list (list Z) :=
  replicate rows (replicate 38 0xff%Z).

Lemma sample_matrix_bytes (rows : nat) : Forall (Forall is_byte) (sample_matrix rows).
Proof.
  unfold sample_matrix.
  apply Forall_replicate, Forall_replicate. unfold is_byte. lia.
Qed.

Lemma printBitmap_assembles_job_witness :
  chunks (snd (fst (printBitmap linux_env (Some (sample_matrix 2)) (Some 3%Z)
                      (new_instance network_config) empty_world)))
  = expected_job (sample_matrix 2) 3.
Proof.
  apply (printBitmap_assembles_job linux_env (sample_matrix 2) 3
           (new_instance network_config) empty_world).
  - discriminate.
  - lia.
  - apply sample_matrix_bytes.
Defined.

Lemma printBitmap_label_length_witness :
  chunks (snd (fst (printBitmap linux_env (Some (sample_matrix 1052)) (Some 1%Z)
                      (new_instance network_config) empty_world))) !! 4%nat
  = Some [0x1b; 0x4c; 0x04; 0x1c]%Z.
Proof.
  apply (printBitmap_label_length linux_env (sample_matrix 1052) 1
           (new_instance network_config) empty_world).
  - discriminate.
  - lia.
  - unfold sample_matrix. apply length_replicate.
Defined.

Lemma printBitmap_rejects_invalid_input_witness :
  (exists e : error,
     fst (fst (printBitmap linux_env (Some []) (Some 1%Z)
                 (new_instance network_config) empty_world)) = Thrown e
     /\ kind_of e = InvalidInput
     /\ snd (printBitmap linux_env (Some []) (Some 1%Z)
               (new_instance network_config) empty_world) = empty_world
     /\ trace (snd (printBitmap linux_env (Some []) (Some 1%Z)
                      (new_instance network_config) empty_world)) = [])
  /\ (exists e : error,
        fst (fst (printBitmap linux_env (Some (sample_matrix 2)) (Some 0%Z)
                    (new_instance network_config) empty_world)) = Thrown e
        /\ kind_of e = InvalidInput
        /\ snd (printBitmap linux_env (Some (sample_matrix 2)) (Some 0%Z)
                  (new_instance network_config) empty_world) = empty_world
        /\ trace (snd (printBitmap linux_env (Some (sample_matrix 2)) (Some 0%Z)
                         (new_instance network_config) empty_world)) = []).
Proof.
  split.
  - apply (printBitmap_rejects_invalid_input linux_env (Some []) 1
             (new_instance network_config) empty_world).
    right. left. reflexivity.
  - apply (printBitmap_rejects_invalid_input linux_env (Some (sample_matrix 2)) 0
             (new_instance network_config) empty_world).
    right. right. lia.
Defined.

(** An instance whose buffer still holds the chunks of an earlier job. *)
Definition used_instance : DymoServices :=
  {| config := network_config; chunks := [CMD_START_ESC; CMD_RESET] |}.

Lemma printBitmap_invalid_input_keeps_chunks_witness :
  chunks (snd (fst (printBitmap linux_env (Some (sample_matrix 2)) (Some (-1)%Z)
                      used_instance empty_world)))
  = [CMD_START_ESC; CMD_RESET]
  /\ snd (fst (printBitmap linux_env (Some (sample_matrix 2)) (Some (-1)%Z)
                 used_instance empty_world)) = used_instance.
Proof.
  apply (printBitmap_invalid_input_keeps_chunks linux_env (Some (sample_matrix 2))
           (Some (-1)%Z) used_instance empty_world (BadPrintCount (-1))).
  - reflexivity.
  - reflexivity.
Defined.

Section BytesPerLine.

Variable env : Env.

(** C8, as the code has it: the fourth chunk of a job is
    SET_BYTES_PER_LINE, [1B 44 n], where [n] is the byte length of the
    first row modulo 256, whatever the other rows are; so [n] is that
    length itself whenever the first row has at most 255 bytes. *)
Theorem printBitmap_bytes_per_line (imageBuffer : list (list Z))
    (printCount : Z) (self : DymoServices) (w : World) :
  imageBuffer <> [] ->
  (1 <= printCount)%Z ->
  let width := Z.of_nat (length (hd [] imageBuffer)) in
  let job :=
    chunks (snd (fst (printBitmap env (Some imageBuffer) (Some printCount) self w))) in
  job !! 3%nat = Some [0x1b; 0x44; width mod 256]%Z
  /\ ((width <= 255)%Z -> job !! 3%nat = Some [0x1b; 0x44; width]%Z).
Proof.
  intros Hne Hcount width job.
  assert (Hjob : job !! 3%nat = Some [0x1b; 0x44; width mod 256]%Z).
  { subst job. rewrite printBitmap_valid_chunks by assumption.
    rewrite init_chunks_bytes. reflexivity. }
  split; [exact Hjob|].
  intros Hsmall. rewrite Hjob, Z.mod_small by (subst width; lia). reflexivity.
Qed.

End BytesPerLine.

(** A first row of 42 bytes gives the parameter byte 42, whatever the
    lengths of the other rows. *)
Lemma printBitmap_bytes_per_line_witness :
  chunks (snd (fst (printBitmap linux_env
                      (Some [replicate 42 0%Z; replicate 7 0%Z; []]) (Some 1%Z)
                      (new_instance network_config) empty_world))) !! 3%nat
  = Some [0x1b; 0x44; 42]%Z.
Proof.
  apply (printBitmap_bytes_per_line linux_env
           [replicate 42 0%Z; replicate 7 0%Z; []] 1
           (new_instance network_config) empty_world).
  - discriminate.
  - lia.
  - simpl. lia.
Defined.

(** C8 as stated fails where the first row has 256 bytes: the parameter
    byte is 0, not the length of the row. *)
Lemma printBitmap_bytes_per_line_wraps :
  chunks (snd (fst (printBitmap linux_env (Some [replicate 256 0%Z]) (Some 1%Z)
                      (new_instance network_config) empty_world))) !! 3%nat
  = Some [0x1b; 0x44; 0]%Z
  /\ chunks (snd (fst (printBitmap linux_env (Some [replicate 256 0%Z]) (Some 1%Z)
                         (new_instance network_config) empty_world))) !! 3%nat
     <> Some [0x1b; 0x44; Z.of_nat (length (replicate 256 0%Z))]%Z.
Proof.
  assert (H : chunks (snd (fst (printBitmap linux_env (Some [replicate 256 0%Z])
                                  (Some 1%Z) (new_instance network_config)
                                  empty_world))) !! 3%nat
              = Some [0x1b; 0x44; 0]%Z) by (vm_compute; reflexivity).
  split; [exact H|].
  rewrite H. vm_compute. discriminate.
Qed.

(** ** Construction *)

Lemma Cfg_assign_empty (c : Cfg.t) : Cfg.assign Cfg.empty c = c.
Proof.
  destruct c as [i h p d v]. unfold Cfg.assign, Cfg.empty. simpl.
  destruct i, h, p, d, v; reflexivity.
Qed.

(** [INTERFACES.indexOf(i) === -1] says that [i] is none of the four. *)
Lemma indexOf_is_minus1_spec (i : string) :
  indexOf_is_minus1 i INTERFACES = true <-> ~ In i INTERFACES.
Proof.
  unfold indexOf_is_minus1. rewrite negb_true_iff.
  split.
  - intros Hex Hin.
    assert (existsb (String.eqb i) INTERFACES = true) as Ht.
    { apply existsb_exists. exists i. split; [exact Hin | apply String.eqb_refl]. }
    congruence.
  - intros Hnin. destruct (existsb (String.eqb i) INTERFACES) eqn:Hex; [|reflexivity].
    apply existsb_exists in Hex. destruct Hex as (x & Hin & Heq).
    apply String.eqb_eq in Heq. subst x. contradiction.
Qed.

(** C7, as the code has it: the constructor throws a ConfigError when the
    interface of the given configuration is a non-empty string other than
    NETWORK, CUPS, WINDOWS and DEVICE; it succeeds, keeping the
    configuration, when the interface is absent, empty or one of the four,
    and when no configuration is given. The constructor is a pure function
    of its argument: it has no access to the world, so nothing is read,
    written or dispatched by it. *)
Theorem constructor_validates_interface (c : Cfg.t) :
  (forall i : string,
      Cfg.interface c = Some i -> i <> "" -> ~ In i INTERFACES ->
      constructor (Some c) = Thrown (InvalidInterface i)
      /\ kind_of (InvalidInterface i) = ConfigError)
  /\ (Cfg.interface c = None \/ Cfg.interface c = Some ""
      \/ (exists i : string, Cfg.interface c = Some i /\ In i INTERFACES) ->
      constructor (Some c) = Fulfilled {| config := c; chunks := [] |})
  /\ constructor None = Fulfilled {| config := Cfg.empty; chunks := [] |}.
Proof.
  split; [|split].
  - intros i Hi Hne Hnin.
    unfold constructor, validateConfig. rewrite Cfg_assign_empty, Hi.
    cbn [default from_option id].
    destruct i as [|a i]; [congruence|]. cbn [truthy andb].
    apply indexOf_is_minus1_spec in Hnin. rewrite Hnin.
    split; reflexivity.
  - intros H. unfold constructor, validateConfig. rewrite Cfg_assign_empty.
    destruct H as [H|[H|(i & H & Hin)]]; rewrite H.
    + reflexivity.
    + reflexivity.
    + cbn [default from_option id].
      destruct (indexOf_is_minus1 i INTERFACES) eqn:Hidx.
      * apply indexOf_is_minus1_spec in Hidx. contradiction.
      * rewrite andb_false_r. reflexivity.
  - reflexivity.
Qed.

Lemma constructor_validates_interface_witness :
  (constructor (Some (Cfg.mk (Some "BOGUS") None None None None))
   = Thrown (InvalidInterface "BOGUS")
   /\ kind_of (InvalidInterface "BOGUS") = ConfigError)
  /\ constructor (Some network_config)
     = Fulfilled {| config := network_config; chunks := [] |}
  /\ constructor (Some Cfg.empty) = Fulfilled {| config := Cfg.empty; chunks := [] |}.
Proof.
  split; [|split].
  - apply (proj1 (constructor_validates_interface
                    (Cfg.mk (Some "BOGUS") None None None None)) "BOGUS").
    + reflexivity.
    + discriminate.
    + simpl. intros [H|[H|[H|[H|[]]]]]; discriminate.
  - apply (proj1 (proj2 (constructor_validates_interface network_config))).
    right. right. exists PRINTER_INTERFACE_NETWORK. split; [reflexivity | simpl; auto].
  - apply (proj1 (proj2 (constructor_validates_interface Cfg.empty))).
    left. reflexivity.
Defined.

(** C7 as stated fails for the empty string: it is present, it is none of
    the four values, and the constructor accepts it. *)
Lemma constructor_accepts_empty_interface :
  Cfg.interface (Cfg.mk (Some "") None None None None) = Some ""
  /\ ~ In "" INTERFACES
  /\ constructor (Some (Cfg.mk (Some "") None None None None))
     = Fulfilled {| config := Cfg.mk (Some "") None None None None; chunks := [] |}.
Proof.
  split; [reflexivity|]. split; [|reflexivity].
  simpl. intros [H|[H|[H|[H|[]]]]]; discriminate.
Qed.

(** ** Printer discovery on macOS and Linux *)



(** The name a destination falls back to: its id with every run of
    underscores turned into one space, trimmed. *)
Definition fallback_name (id : string) : string := trim (replace_underscores id).

(** The arguments of the status lookup of the destination [id]. *)
Definition status_args (id : string) : list (option string) :=
  [Some "-l"; Some "-p"; Some id].


(** Every underscore replaced by a space, one for one. *)
Fixpoint underscores_to_spaces (s : string) : string :=
  match s with
  | EmptyString => EmptyString
  | String c r =>
      String (if Ascii.eqb c "_" then " "%char else c) (underscores_to_spaces r)
  end.

(** No two underscores of [s] are adjacent ([after_underscore]: the
    character before [s] is one). *)
Fixpoint single_underscores_from (after_underscore : bool) (s : string) : bool :=
  match s with
  | EmptyString => true
  | String c r =>
      if Ascii.eqb c "_" then negb after_underscore && single_underscores_from true r
      else single_underscores_from false r
  end.

Fixpoint all_space (s : string) : bool :=
  match s with
  | EmptyString => true
  | String c r => is_space c && all_space r
  end.

Lemma replace_underscores_single (b : bool) (s : string) :
  single_underscores_from b s = true ->
  replace_underscores_from b s = underscores_to_spaces s.
Proof.
  revert b. induction s as [|c r IH]; intros b Hs; simpl in *.
  - reflexivity.
  - destruct (Ascii.eqb c "_").
    + apply andb_true_iff in Hs. destruct Hs as [Hb Hr].
      destruct b; [discriminate|]. rewrite (IH true Hr). reflexivity.
    + rewrite (IH false Hs). reflexivity.
Qed.











(** For an id whose underscores are single, the fallback name is the id with
    a space for every underscore, trimmed. *)
Lemma fallback_name_single (id : string) :
  single_underscores_from false id = true ->
  fallback_name id = trim (underscores_to_spaces id).
Proof.
  intros Hs. unfold fallback_name, replace_underscores.
  rewrite (replace_underscores_single false id Hs). reflexivity.
Qed.




(** A status text without description leaves the name alone, and so does an
    empty one. *)
Lemma description_of_empty : description_of "" = None.
Proof. reflexivity. Qed.


(** What [description_of] finds: the first line of the status text that
    starts with [description:] (in any case, after trimming) and has text
    left once that word is removed. *)
Lemma description_of_Some (value description : string) :
  description_of value = Some description ->
  description <> ""
  /\ exists line : string,
       In line (split LF value)
       /\ matches_description (trim line) = true
       /\ description = trim (remove_description line).
Proof.
  unfold description_of. intros Hfind.
  apply find_some in Hfind. destruct Hfind as [Hin Hne].
  split.
  - destruct description; [discriminate | congruence].
  - apply in_map_iff in Hin. destruct Hin as (line & Heq & Hin).
    apply filter_In in Hin. destruct Hin as [Hin Hm].
    exists line. auto.
Qed.

Lemma description_of_None (value : string) :
  description_of value = None ->
  forall line : string,
    In line (split LF value) ->
    matches_description (trim line) = true ->
    trim (remove_description line) = "".
Proof.
  unfold description_of. intros Hfind line Hin Hm.
  pose proof (find_none _ _ Hfind (trim (remove_description line))) as Hn.
  destruct (trim (remove_description line)) eqn:Ht; [reflexivity|].
  exfalso. rewrite <- Ht in Hn.
  assert (nonempty (trim (remove_description line)) = false) as Hf.
  { apply Hn. apply in_map_iff. exists line. split; [reflexivity|].
    apply filter_In. auto. }
  rewrite Ht in Hf. discriminate.
Qed.

(** The destination ids [lpstat -e] printed: its non-blank rows, trimmed. *)
Definition destination_ids (stdout : string) : list string :=
  map trim (List.filter (fun row => nonempty (trim row)) (split LF stdout)).

(** *** The names, in the words of the specification *)

(** The text a line of a status output describes the printer with, if any:
    the line, trimmed, starts with [description:] in any case, and what is
    left of it without that word, trimmed, is not empty. *)
Definition description_text (line : string) : option string :=
  if startsWith "description:" (toLowerCase (trim line)) then
    match trim (remove_description line) with
    | EmptyString => None
    | text => Some text
    end
  else None.







(** *** A description line read by hand

    The line [Description: text] of a status output, indented or not,
    describes the printer with its text, trimmed. *)

Lemma space_not_d (c : ascii) :
  is_space c = true -> Ascii.eqb "d" (lower_char c) = false.
Proof.
  destruct c as [[] [] [] [] [] [] [] []]; try discriminate; reflexivity.
Qed.

Lemma remove_description_indent (indent s : string) :
  all_space indent = true ->
  remove_description (indent ++ s)%string = (indent ++ remove_description s)%string.
Proof.
  unfold remove_description. induction indent as [|c indent IH]; intros Hs.
  - reflexivity.
  - simpl in Hs. apply andb_true_iff in Hs. destruct Hs as [Hc Hs].
    change (String c indent ++ s)%string with (String c (indent ++ s)%string).
    cbn [remove_description_from].
    unfold matches_description at 1. cbn [toLowerCase startsWith].
    rewrite (space_not_d c Hc). cbn [andb].
    rewrite (IH Hs). reflexivity.
Qed.

Lemma remove_description_free (text : string) :
  includes "description:" (toLowerCase text) = false ->
  remove_description text = text.
Proof.
  unfold remove_description. induction text as [|c text IH]; intros H.
  - reflexivity.
  - cbn [toLowerCase includes] in H. apply orb_false_iff in H. destruct H as [Hm Hr].
    cbn [remove_description_from]. unfold matches_description.
    cbn [toLowerCase]. rewrite Hm, (IH Hr). reflexivity.
Qed.

Lemma trimEnd_keep (c : ascii) (s : string) :
  is_space c = false -> trimEnd (String c s) = String c (trimEnd s).
Proof.
  intros Hc. cbn [trimEnd]. destruct (trimEnd s); [rewrite Hc|]; reflexivity.
Qed.

Lemma trimStart_indent (indent s : string) :
  all_space indent = true -> trimStart (indent ++ s)%string = trimStart s.
Proof.
  induction indent as [|c indent IH]; intros Hs; [reflexivity|].
  simpl in Hs. apply andb_true_iff in Hs. destruct Hs as [Hc Hs].
  change (String c indent ++ s)%string with (String c (indent ++ s)%string).
  cbn [trimStart]. rewrite Hc. exact (IH Hs).
Qed.

Lemma description_text_line (indent text : string) :
  all_space indent = true ->
  includes "description:" (toLowerCase text) = false ->
  trim text <> "" ->
  description_text (indent ++ "Description:" ++ text)%string = Some (trim text).
Proof.
  intros Hindent Hfree Hne. unfold description_text.
  assert (Hm : startsWith "description:"
                 (toLowerCase (trim (indent ++ "Description:" ++ text)%string)) = true).
  { unfold trim. rewrite (trimStart_indent indent _ Hindent).
    change ("Description:" ++ text)%string
      with (String "D" (String "e" (String "s" (String "c" (String "r" (String "i"
             (String "p" (String "t" (String "i" (String "o" (String "n"
                (String ":" text)))))))))))).
    cbn [trimStart]. change (is_space "D") with false. cbv iota.
    rewrite !trimEnd_keep by reflexivity. reflexivity. }
  rewrite Hm.
  rewrite (remove_description_indent indent _ Hindent).
  assert (Hr : remove_description ("Description:" ++ text)%string = text).
  { rewrite <- (remove_description_free text Hfree) at 2. reflexivity. }
  rewrite Hr. unfold trim at 1. rewrite (trimStart_indent indent _ Hindent).
  fold (trim text). destruct (trim text); [congruence | reflexivity].
Qed.

Example description_text_ex :
  description_text "        Description: DYMO LabelWriter 450 Turbo"
  = Some "DYMO LabelWriter 450 Turbo".
Proof.
  apply (description_text_line "        " " DYMO LabelWriter 450 Turbo");
    [reflexivity | reflexivity | discriminate].
Qed.











(** ** Dispatch without a configured interface *)

(** [find] returns the first element that satisfies the callback. *)
Lemma find_first {A} (f : A -> bool) (before after : list A) (x : A) :
  Forall (fun y => f y = false) before ->
  f x = true ->
  List.find f (before ++ x :: after) = Some x.
Proof.
  induction 1 as [|y before Hy _ IH]; intros Hx; simpl.
  - rewrite Hx. reflexivity.
  - rewrite Hy. apply IH. exact Hx.
Qed.

Lemma find_nothing {A} (f : A -> bool) (l : list A) :
  Forall (fun y => f y = false) l -> List.find f l = None.
Proof.
  induction 1 as [|y l Hy _ IH]; simpl.
  - reflexivity.
  - rewrite Hy. exact IH.
Qed.

(** The callback of [find] holds of the printers whose name contains
    [dymo], in any case. *)
Lemma is_dymo_spec (printer : Printer.t) :
  is_dymo printer = true
  <-> exists name : string,
        Printer.name printer = Some name
        /\ includes "dymo" (toLowerCase name) = true.
Proof.
  unfold is_dymo. split.
  - destruct (Printer.name printer) as [name|]; [|discriminate].
    intros H. apply andb_true_iff in H. exists name. tauto.
  - intros (name & -> & Hinc).
    destruct name as [|c name]; [discriminate|].
    rewrite Hinc. reflexivity.
Qed.

(** The configuration after a printer was found. *)
Definition discovered (env : Env) (self : DymoServices) (printer : Printer.t)
    : DymoServices :=
  {| config :=
       Cfg.mk
         (Some (if IS_WINDOWS env then PRINTER_INTERFACE_WINDOWS
                else PRINTER_INTERFACE_CUPS))
         (Cfg.host (config self))
         (Cfg.port (config self))
         (Printer.deviceId printer)
         (Cfg.device (config self));
     chunks := chunks self |}.

(** C4, as the code has it. With no interface configured, dispatch runs the
    discovery of the platform and then:
    - when discovery is rejected, dispatch is rejected with the very reason
      of discovery (it is not turned into PrinterNotFound), and the
      configuration is unchanged;
    - when no printer has a name containing [dymo], dispatch is rejected
      with PrinterNotFound, and the configuration is unchanged;
    - otherwise the first such printer is taken, the configuration gets the
      interface WINDOWS (on Windows) or CUPS (elsewhere) and the device id
      of that printer, and dispatch is retried once: the retry is the call
      of that transport with the buffer and the device id, and it makes no
      further attempt. *)
Theorem sendDataToPrinter_discovers (env : Env) (self : DymoServices) (w : World) :
  truthy (Cfg.interface (config self)) = false ->
  (forall (e : error) (w1 : World),
      listPrinters env w = (Rejected e, w1) ->
      sendDataToPrinter env self w = (Rejected e, self, w1))
  /\ (forall (printers : list Printer.t) (w1 : World),
         listPrinters env w = (Fulfilled printers, w1) ->
         Forall (fun printer => is_dymo printer = false) printers ->
         sendDataToPrinter env self w = (Rejected DymoNotFound, self, w1)
         /\ kind_of DymoNotFound = PrinterNotFound)
  /\ (forall (before after : list Printer.t) (printer : Printer.t) (w1 : World),
         listPrinters env w = (Fulfilled (before ++ printer :: after), w1) ->
         Forall (fun printer => is_dymo printer = false) before ->
         is_dymo printer = true ->
         sendDataToPrinter env self w
         = sendDataToPrinter_rec env 1 (discovered env self printer) w1
         /\ sendDataToPrinter_rec env 1 (discovered env self printer) w1
            = lift
                ((if IS_WINDOWS env then sendDataToWindowsPrinter env
                  else sendDataToCupsPrinter env)
                   (Buffer_concat (chunks self)) (Printer.deviceId printer))
                (discovered env self printer) w1
         /\ snd (fst (sendDataToPrinter env self w)) = discovered env self printer).
Proof.
  intros Hunset.
  split; [|split].
  - intros e w1 Hl.
    unfold sendDataToPrinter. cbn [sendDataToPrinter_rec].
    rewrite Hunset, Hl. reflexivity.
  - intros printers w1 Hl Hnone.
    unfold sendDataToPrinter. cbn [sendDataToPrinter_rec].
    rewrite Hunset, Hl. cbn [negb].
    rewrite (find_nothing _ _ Hnone). split; reflexivity.
  - intros before after printer w1 Hl Hbefore Hprinter.
    assert (Hfirst :
      sendDataToPrinter env self w
      = sendDataToPrinter_rec env 1 (discovered env self printer) w1).
    { unfold sendDataToPrinter. cbn [sendDataToPrinter_rec].
      rewrite Hunset, Hl. cbn [negb].
      rewrite (find_first _ _ _ _ Hbefore Hprinter). reflexivity. }
    assert (Hretry :
      sendDataToPrinter_rec env 1 (discovered env self printer) w1
      = lift
          ((if IS_WINDOWS env then sendDataToWindowsPrinter env
            else sendDataToCupsPrinter env)
             (Buffer_concat (chunks self)) (Printer.deviceId printer))
          (discovered env self printer) w1).
    { unfold discovered. destruct (IS_WINDOWS env); reflexivity. }
    split; [exact Hfirst|]. split; [exact Hretry|].
    rewrite Hfirst, Hretry. apply lift_instance.
Qed.

(** On the Linux host the first listed printer is a Dymo: the job is sent
    to it through CUPS and the instance remembers it. *)
Lemma sendDataToPrinter_discovers_witness :
  snd (fst (sendDataToPrinter linux_env (new_instance Cfg.empty) empty_world))
  = {| config := Cfg.mk (Some "CUPS") None None (Some "DYMO_LabelWriter_450") None;
       chunks := [] |}.
Proof.
  apply (proj2 (proj2 (sendDataToPrinter_discovers linux_env (new_instance Cfg.empty)
                         empty_world eq_refl))
           []
           [Printer.mk (Some "Office_Laser") (Some "Office Laser")]
           (Printer.mk (Some "DYMO_LabelWriter_450") (Some "DYMO LabelWriter 450 Turbo"))
           (snd (listPrinters linux_env empty_world))).
  - vm_compute. reflexivity.
  - constructor.
  - reflexivity.
Defined.

(** C4 as stated fails when discovery itself fails: on a platform without
    discovery, dispatch is rejected with the reason of discovery, an
    UnsupportedPlatform error, and not with PrinterNotFound. *)
Lemma sendDataToPrinter_discovery_failure_propagates :
  truthy (Cfg.interface (config (new_instance Cfg.empty))) = false
  /\ fst (listPrinters freebsd_env empty_world) = Rejected (UnsupportedOS "freebsd")
  /\ fst (fst (sendDataToPrinter freebsd_env (new_instance Cfg.empty) empty_world))
     = Rejected (UnsupportedOS "freebsd")
  /\ UnsupportedOS "freebsd" <> DymoNotFound
  /\ kind_of (UnsupportedOS "freebsd") <> PrinterNotFound.
Proof.
  repeat split; try reflexivity; discriminate.
Qed.

(** ** The Windows transport *)

Definition windows_config : Cfg.t :=
  Cfg.mk (Some PRINTER_INTERFACE_WINDOWS) None None None None.

Definition windows_tmp : string := "C:\Temp\tmp.00112233445566778899aabbccddeeff".

(** C2 at its failing input: when the raw-print helper fails, the transport
    is rejected and the temporary file it wrote is still there; the file is
    removed only when the helper succeeds. *)
Theorem sendDataToWindowsPrinter_leaves_file_on_failure :
  fst (sendDataToWindowsPrinter (windows_env false) [0x1b; 0x45]%Z (Some "DYMO")
         empty_world)
  = Rejected (ExecFailed "RP.exe exited with code 1")
  /\ files (snd (sendDataToWindowsPrinter (windows_env false) [0x1b; 0x45]%Z
                   (Some "DYMO") empty_world)) !! windows_tmp
     = Some [0x1b; 0x45]%Z
  /\ trace (snd (sendDataToWindowsPrinter (windows_env false) [0x1b; 0x45]%Z
                   (Some "DYMO") empty_world))
     = [RandomBytes 16;
        FsWriteFile windows_tmp [0x1b; 0x45]%Z;
        Exec "C:\app\dist\RP.exe" [Some "DYMO"; Some windows_tmp] (Some [0x1b; 0x45]%Z)]
  /\ fst (sendDataToWindowsPrinter (windows_env true) [0x1b; 0x45]%Z (Some "DYMO")
            empty_world)
     = Fulfilled tt
  /\ files (snd (sendDataToWindowsPrinter (windows_env true) [0x1b; 0x45]%Z
                   (Some "DYMO") empty_world)) !! windows_tmp
     = None.
Proof.
  repeat split; vm_compute; reflexivity.
Qed.

(** C3 at its failing input: with the interface WINDOWS and no device id,
    dispatch raises no ConfigError; it writes the temporary file and calls
    the helper with an undefined device id, whereas the CUPS and the device
    transports refuse a missing id before doing anything. *)
Theorem sendDataToPrinter_windows_without_deviceId :
  fst (fst (sendDataToPrinter (windows_env true) (new_instance windows_config)
              empty_world))
  = Fulfilled tt
  /\ trace (snd (sendDataToPrinter (windows_env true) (new_instance windows_config)
                   empty_world))
     = [RandomBytes 16;
        FsWriteFile windows_tmp [];
        Exec "C:\app\dist\RP.exe" [None; Some windows_tmp] (Some []);
        FsUnlink windows_tmp]
  /\ sendDataToCupsPrinter (windows_env true) [] None empty_world
     = (Rejected CupsDeviceIdMissing, empty_world)
  /\ sendDataToDevicePrinter (windows_env true) [] None empty_world
     = (Rejected DeviceNameEmpty, empty_world).
Proof.
  repeat split; vm_compute; reflexivity.
Qed.

(** * Further properties of the class *)

(** ** What the methods hand to their collaborators *)

(** The data an event carries to a collaborator: the standard input of a
    process, the bytes written to a socket or to a file. *)
Definition payload (e : event) : option Buffer :=
  match e with
  | Exec _ _ stdin => stdin
  | NetWrite data => Some data
  | FsWriteFile _ data => Some data
  | NetConnect _ _ | NetEnd | FsUnlink _ | RandomBytes _ => None
  end.

(** A static method that only adds events satisfying [P] to the trace. *)
Definition emits {A} (P : event -> Prop) (m : W A) : Prop :=
  forall w : World,
    exists evs : list event, trace (snd (m w)) = trace w ++ evs /\ Forall P evs.

Lemma emits_fail {A} (P : event -> Prop) (o : outcome A) : emits P (W_fail o).
Proof. intros w. exists []. split; [symmetry; apply app_nil_r | constructor]. Qed.

Lemma emits_ret {A} (P : event -> Prop) (a : A) : emits P (W_ret a).
Proof. intros w. exists []. split; [symmetry; apply app_nil_r | constructor]. Qed.

Lemma emits_bind {A B} (P : event -> Prop) (m : W A) (k : A -> W B) :
  emits P m -> (forall a, emits P (k a)) -> emits P (W_bind m k).
Proof.
  intros Hm Hk w. unfold W_bind.
  destruct (Hm w) as (evs & Ht & Hevs).
  destruct (m w) as [[a|e|e|] w1]; simpl in Ht; try (exists evs; split; assumption).
  destruct (Hk a w1) as (evs' & Ht' & Hevs').
  exists (evs ++ evs'). split.
  - rewrite Ht', Ht, app_assoc. reflexivity.
  - apply Forall_app. split; assumption.
Qed.

Lemma emits_promise {A} (P : event -> Prop) (body : W A) :
  emits P body -> emits P (promise body).
Proof.
  intros Hb w. unfold promise.
  destruct (Hb w) as (evs & Ht & Hevs).
  destruct (body w) as [o w1]. exists evs. split; assumption.
Qed.

Lemma emits_one {A} (P : event -> Prop) (e : event) (o : outcome A) (w : World)
    (fs : gmap string Buffer) (n : nat) :
  P e ->
  exists evs : list event,
    trace (snd (o, {| files := fs; entropy := n; trace := trace w ++ [e] |}))
    = trace w ++ evs /\ Forall P evs.
Proof. intros He. exists [e]. split; [reflexivity | repeat constructor; exact He]. Qed.

Section Effects.

Variable env : Env.

Lemma emits_run_execute (P : event -> Prop) command args stdin :
  P (Exec command args stdin) -> emits P (run_execute env command args stdin).
Proof.
  intros He w. unfold run_execute, log.
  destruct (execute env command args stdin); apply emits_one; exact He.
Qed.

Lemma emits_fs_write (P : event -> Prop) failure path data :
  P (FsWriteFile path data) -> emits P (fs_write env failure path data).
Proof.
  intros He w. unfold fs_write, log.
  destruct (write_error env path); apply emits_one; exact He.
Qed.

Lemma emits_fs_unlinkSync (P : event -> Prop) path :
  P (FsUnlink path) -> emits P (fs_unlinkSync path).
Proof.
  intros He w. unfold fs_unlinkSync, log.
  destruct (files w !! path); apply emits_one; exact He.
Qed.

Lemma emits_tmpFile (P : event -> Prop) prefix suffix dir :
  P (RandomBytes 16) -> emits P (tmpFile env prefix suffix dir).
Proof.
  intros He. unfold tmpFile. apply emits_bind.
  - intros w. unfold randomBytes16_hex. apply emits_one. exact He.
  - intros hex. apply emits_ret.
Qed.

Lemma emits_read_dirname (P : event -> Prop) : emits P (read_dirname env).
Proof.
  unfold read_dirname. destruct (dirname env); [apply emits_ret | apply emits_fail].
Qed.

Lemma emits_allSettled {A} (P : event -> Prop) (promises : list (W A)) :
  Forall (emits P) promises -> emits P (allSettled promises).
Proof.
  induction 1 as [|p rest Hp _ IH]; simpl.
  - apply emits_ret.
  - intros w. destruct (Hp w) as (evs & Ht & Hevs).
    destruct (p w) as [o w1]. simpl in Ht.
    assert (Hrest : emits P (W_bind (allSettled rest) (fun results => W_ret (o :: results))))
      by (apply emits_bind; [exact IH | intros; apply emits_ret]).
    destruct (Hrest w1) as (evs' & Ht' & Hevs').
    exists (evs ++ evs'). split.
    + rewrite Ht', Ht, app_assoc. reflexivity.
    + apply Forall_app. split; assumption.
Qed.

(** The transports hand over the buffer they were given and nothing else. *)
Definition carries (buffer : Buffer) (e : event) : Prop :=
  payload e = None \/ payload e = Some buffer.

Lemma sendDataToNetworkPrinter_carries buffer host port :
  emits (carries buffer) (sendDataToNetworkPrinter env buffer host port).
Proof.
  intros w. unfold sendDataToNetworkPrinter, log.
  set (h := default "localhost" host). set (p := default 9100%Z port).
  destruct (connect env h p);
    [exists [NetConnect h p; NetWrite buffer; NetEnd]
    |exists [NetConnect h p; NetEnd]
    |exists [NetConnect h p; NetEnd]];
    (split; [simpl; rewrite <- ?app_assoc; reflexivity|]);
    repeat (apply List.Forall_cons; [unfold carries; simpl; auto|]);
    apply List.Forall_nil.
Qed.

Lemma sendDataToDevicePrinter_carries buffer device :
  emits (carries buffer) (sendDataToDevicePrinter env buffer device).
Proof.
  unfold sendDataToDevicePrinter. apply emits_promise.
  destruct (negb (truthy device)); [apply emits_fail|].
  apply emits_fs_write. right. reflexivity.
Qed.

Lemma sendDataToCupsPrinter_carries buffer deviceId :
  emits (carries buffer) (sendDataToCupsPrinter env buffer deviceId).
Proof.
  unfold sendDataToCupsPrinter. apply emits_promise.
  destruct (negb (truthy deviceId)); [apply emits_fail|].
  apply emits_bind; [|intros; apply emits_ret].
  apply emits_run_execute. right. reflexivity.
Qed.

Lemma sendDataToWindowsPrinter_carries buffer deviceId :
  emits (carries buffer) (sendDataToWindowsPrinter env buffer deviceId).
Proof.
  unfold sendDataToWindowsPrinter. apply emits_promise.
  apply emits_bind; [apply emits_tmpFile; left; reflexivity|].
  intros tmp. apply emits_bind; [apply emits_fs_write; right; reflexivity|].
  intros _. apply emits_bind; [apply emits_read_dirname|].
  intros dir. apply emits_bind; [apply emits_run_execute; right; reflexivity|].
  intros _. apply emits_bind; [apply emits_fs_unlinkSync; left; reflexivity|].
  intros _. apply emits_ret.
Qed.

(** Discovery only runs processes, and feeds them nothing. *)
Definition is_query (e : event) : Prop :=
  exists command args, e = Exec command args None.

Lemma listPrintersWindows_queries : emits is_query (listPrintersWindows env).
Proof.
  unfold listPrintersWindows. apply emits_promise.
  apply emits_bind; [|intros; apply emits_ret].
  apply emits_run_execute. eexists _, _. reflexivity.
Qed.

Lemma listPrintersMacLinux_queries : emits is_query (listPrintersMacLinux env).
Proof.
  unfold listPrintersMacLinux. apply emits_promise.
  apply emits_bind; [apply emits_run_execute; eexists _, _; reflexivity|].
  intros stdout. apply emits_bind; [|intros; apply emits_ret].
  apply emits_allSettled. apply Forall_map, Forall_forall. intros printer _.
  apply emits_run_execute. eexists _, _. reflexivity.
Qed.

Lemma listPrinters_queries : emits is_query (listPrinters env).
Proof.
  unfold listPrinters.
  destruct (IS_WINDOWS env); [apply listPrintersWindows_queries|].
  destruct (IS_MACOS env || IS_LINUX env);
    [apply listPrintersMacLinux_queries | apply emits_fail].
Qed.

Lemma is_query_carries (buffer : Buffer) (e : event) : is_query e -> carries buffer e.
Proof. intros (command & args & ->). left. reflexivity. Qed.

Lemma lift_emits {A} (P : event -> Prop) (m : W A) (self : DymoServices) (w : World) :
  emits P m ->
  exists evs : list event,
    trace (snd (lift m self w)) = trace w ++ evs /\ Forall P evs.
Proof.
  intros Hm. unfold lift. destruct (Hm w) as (evs & Ht & Hevs).
  destruct (m w) as [o w1]. exists evs. split; assumption.
Qed.

Lemma sendDataToPrinter_rec_carries (fuel : nat) :
  forall (self : DymoServices) (w : World),
  exists evs : list event,
    trace (snd (sendDataToPrinter_rec env fuel self w)) = trace w ++ evs
    /\ Forall (carries (Buffer_concat (chunks self))) evs.
Proof.
  induction fuel as [|fuel IH]; intros self w.
  - exists []. split; [symmetry; apply app_nil_r | constructor].
  - cbn [sendDataToPrinter_rec].
    destruct (negb (truthy (Cfg.interface (config self)))).
    + destruct (listPrinters_queries w) as (evs & Ht & Hevs).
      assert (Hc : Forall (carries (Buffer_concat (chunks self))) evs)
        by (eapply Forall_impl; [exact Hevs | intros e; apply is_query_carries]).
      destruct (listPrinters env w) as [[printers|e|e|] w1]; simpl in Ht;
        try (exists evs; split; assumption).
      destruct (List.find (is_dymo) printers) as [printer|];
        [|exists evs; split; assumption].
      match goal with
      | |- context [sendDataToPrinter_rec env fuel ?s w1] =>
          destruct (IH s w1) as (evs' & Ht' & Hevs')
      end.
      exists (evs ++ evs'). split.
      * rewrite Ht', Ht, app_assoc. reflexivity.
      * apply Forall_app. split; assumption.
    + repeat match goal with
             | |- context [if ?b then _ else _] => destruct b
             end;
        try (apply lift_emits);
        auto using sendDataToNetworkPrinter_carries, sendDataToCupsPrinter_carries,
          sendDataToWindowsPrinter_carries, sendDataToDevicePrinter_carries.
      exists []. split; [symmetry; apply app_nil_r | constructor].
Qed.

End Effects.

(** ** How the transports and the discovery fail *)

Section Failures.

Variable env : Env.

Lemma sendDataToNetworkPrinter_errors buffer host port (w : World) (e : error) :
  fst (sendDataToNetworkPrinter env buffer host port w) = Rejected e ->
  (exists reason, e = SocketFailed reason) \/ e = ConnectTimeout.
Proof.
  unfold sendDataToNetworkPrinter.
  destruct (connect env _ _); simpl; intros H; inversion H; eauto.
Qed.

Lemma sendDataToDevicePrinter_errors buffer device (w : World) (e : error) :
  fst (sendDataToDevicePrinter env buffer device w) = Rejected e ->
  (truthy device = false /\ e = DeviceNameEmpty)
  \/ (truthy device = true /\ exists reason, e = FsFailed reason).
Proof.
  unfold sendDataToDevicePrinter, promise, fs_writeFile, fs_write, W_fail.
  destruct (truthy device); simpl.
  - destruct (write_error env _); simpl; intros H; inversion H; eauto.
  - intros H; inversion H; eauto.
Qed.

Lemma sendDataToCupsPrinter_errors buffer deviceId (w : World) (e : error) :
  fst (sendDataToCupsPrinter env buffer deviceId w) = Rejected e ->
  (truthy deviceId = false /\ e = CupsDeviceIdMissing)
  \/ (truthy deviceId = true /\ exists reason, e = ExecFailed reason).
Proof.
  unfold sendDataToCupsPrinter, promise, W_bind, run_execute, W_fail, W_ret.
  destruct (truthy deviceId); simpl.
  - destruct (execute env _ _ _); simpl; intros H; inversion H; eauto.
  - intros H; inversion H; eauto.
Qed.

Lemma sendDataToWindowsPrinter_errors buffer deviceId (w : World) (e : error) :
  fst (sendDataToWindowsPrinter env buffer deviceId w) = Rejected e ->
  (exists reason, e = ExecFailed reason) \/ (exists reason, e = FsFailed reason)
  \/ (dirname env = None /\ e = DirnameNotDefined).
Proof.
  unfold sendDataToWindowsPrinter, promise, W_bind, tmpFile, randomBytes16_hex,
    fs_writeFileSync, fs_write, read_dirname, run_execute, fs_unlinkSync,
    W_ret, W_fail.
  simpl.
  destruct (write_error env _); simpl; [intros H; inversion H; eauto|].
  destruct (dirname env) as [dir|]; simpl; [|intros H; inversion H; auto].
  destruct (execute env _ _ _); simpl; [|intros H; inversion H; eauto].
  match goal with |- context [match ?x with Some _ => _ | None => _ end] => destruct x end;
    simpl; intros H; inversion H; eauto.
Qed.

Lemma allSettled_fulfils {A} (promises : list (W A)) (w : World) :
  exists results, fst (allSettled promises w) = Fulfilled results.
Proof.
  revert w. induction promises as [|p rest IH]; intros w; simpl.
  - eexists. reflexivity.
  - destruct (p w) as [o w1]. unfold W_bind.
    destruct (IH w1) as (results & Hr).
    destruct (allSettled rest w1) as [o' w2]. simpl in Hr. subst o'.
    eexists. reflexivity.
Qed.

Lemma listPrinters_errors (w : World) (e : error) :
  fst (listPrinters env w) = Rejected e ->
  (IS_WINDOWS env = false /\ IS_MACOS env || IS_LINUX env = false
   /\ e = UnsupportedOS (platform env))
  \/ (exists reason, e = ExecFailed reason).
Proof.
  unfold listPrinters.
  destruct (IS_WINDOWS env); [|destruct (IS_MACOS env || IS_LINUX env)].
  - unfold listPrintersWindows, promise, W_bind, run_execute, W_ret.
    destruct (execute env _ _ _); simpl; intros H; inversion H; eauto.
  - unfold listPrintersMacLinux, promise, W_bind at 1, run_execute at 1.
    destruct (execute env "lpstat" [Some "-e"] None) as [stdout|reason]; simpl;
      [|intros H; inversion H; eauto].
    unfold W_bind.
    match goal with
    | |- context [allSettled ?ps ?w1] =>
        destruct (allSettled_fulfils ps w1) as (results & Hr);
        destruct (allSettled ps w1) as [o w2]
    end.
    simpl in Hr. subst o. simpl. discriminate.
  - simpl. intros H; inversion H; auto.
Qed.

(** With an interface configured, dispatch is the transport of that name,
    or the refusal of a name that is none of the four. *)
Lemma sendDataToPrinter_configured (self : DymoServices) (w : World) (i : string) :
  Cfg.interface (config self) = Some i ->
  i <> "" ->
  sendDataToPrinter env self w
  = if String.eqb i PRINTER_INTERFACE_NETWORK then
      lift (sendDataToNetworkPrinter env (Buffer_concat (chunks self))
              (Cfg.host (config self)) (Cfg.port (config self))) self w
    else if String.eqb i PRINTER_INTERFACE_CUPS then
      lift (sendDataToCupsPrinter env (Buffer_concat (chunks self))
              (Cfg.deviceId (config self))) self w
    else if String.eqb i PRINTER_INTERFACE_WINDOWS then
      lift (sendDataToWindowsPrinter env (Buffer_concat (chunks self))
              (Cfg.deviceId (config self))) self w
    else if String.eqb i PRINTER_INTERFACE_DEVICE then
      lift (sendDataToDevicePrinter env (Buffer_concat (chunks self))
              (Cfg.device (config self))) self w
    else (Rejected (UnknownInterface i), self, w).
Proof.
  intros Hi Hne. unfold sendDataToPrinter. cbn [sendDataToPrinter_rec].
  rewrite Hi. destruct i as [|c i]; [congruence|]. reflexivity.
Qed.

Lemma lift_outcome {A} (m : W A) (self : DymoServices) (w : World) :
  fst (fst (lift m self w)) = fst (m w).
Proof. unfold lift. destruct (m w). reflexivity. Qed.

Lemma lift_world {A} (m : W A) (self : DymoServices) (w : World) :
  snd (lift m self w) = snd (m w).
Proof. unfold lift. destruct (m w). reflexivity. Qed.

Lemma not_in_INTERFACES (i : string) :
  ~ In i INTERFACES <->
  String.eqb i PRINTER_INTERFACE_NETWORK = false
  /\ String.eqb i PRINTER_INTERFACE_CUPS = false
  /\ String.eqb i PRINTER_INTERFACE_WINDOWS = false
  /\ String.eqb i PRINTER_INTERFACE_DEVICE = false.
Proof.
  rewrite !String.eqb_neq. unfold INTERFACES. simpl. split.
  - intros H. repeat split; intros ->; apply H; auto.
  - intros (H1 & H2 & H3 & H4) [H|[H|[H|[H|[]]]]]; subst i; congruence.
Qed.

End Failures.

(** ** The printers discovery returns *)

(** The label and the value [isValidPrinter] reads in a line: the text
    before the first colon, in lower case, and the text between the first
    and the second colon, both trimmed. *)
Definition label_of (line : string) : string :=
  toLowerCase (hd "" (map trim (split ":" line))).

Definition value_of (line : string) : option string :=
  nth_error (map trim (split ":" line)) 1.

(** What holds of the record [some_line] returns when it says yes. *)
Lemma some_line_sound (lines : list string) :
  forall (printerData : Printer.t),
    fst (some_line lines printerData) = true ->
    let found := snd (some_line lines printerData) in
    truthy (Printer.deviceId found) = true
    /\ truthy (Printer.name found) = true
    /\ (Printer.deviceId found = Printer.deviceId printerData
        \/ exists line, In line lines /\ label_of line = "deviceid"
                        /\ value_of line = Printer.deviceId found)
    /\ (Printer.name found = Printer.name printerData
        \/ exists line, In line lines /\ label_of line = "name"
                        /\ value_of line = Printer.name found).
Proof.
  induction lines as [|line rest IH]; intros printerData; [discriminate|].
  cbn [some_line]. fold (label_of line). fold (value_of line).
  set (pd1 := if String.eqb (label_of line) "deviceid"
              then Printer.mk (value_of line) (Printer.name printerData)
              else printerData).
  set (pd2 := if String.eqb (label_of line) "name"
              then Printer.mk (Printer.deviceId pd1) (value_of line)
              else pd1).
  assert (Hd : Printer.deviceId pd2 = Printer.deviceId printerData
               \/ (label_of line = "deviceid" /\ value_of line = Printer.deviceId pd2)).
  { subst pd2 pd1.
    destruct (String.eqb_spec (label_of line) "deviceid") as [Hl|Hl];
      destruct (String.eqb (label_of line) "name"); simpl; auto. }
  assert (Hn : Printer.name pd2 = Printer.name printerData
               \/ (label_of line = "name" /\ value_of line = Printer.name pd2)).
  { subst pd2 pd1.
    destruct (String.eqb_spec (label_of line) "name") as [Hl|Hl];
      destruct (String.eqb (label_of line) "deviceid"); simpl; auto. }
  destruct (truthy (Printer.deviceId pd2) && truthy (Printer.name pd2)) eqn:Hboth.
  - intros _. cbv zeta. cbn [snd]. apply andb_true_iff in Hboth.
    destruct Hboth as [H1 H2].
    repeat split; try assumption.
    + destruct Hd as [Hd|[Hl Hv]]; [left; exact Hd|].
      right. exists line. simpl. auto.
    + destruct Hn as [Hn|[Hl Hv]]; [left; exact Hn|].
      right. exists line. simpl. auto.
  - intros Hvalid. specialize (IH pd2 Hvalid). cbv zeta in IH.
    destruct IH as (H1 & H2 & H3 & H4). cbv zeta.
    repeat split; try assumption.
    + destruct H3 as [H3|(l & Hin & Hl & Hv)].
      * destruct Hd as [Hd|[Hl Hv]]; [left; exact (eq_trans H3 Hd)|].
        right. exists line. split; [left; reflexivity|]. split; [exact Hl|].
        exact (eq_trans Hv (eq_sym H3)).
      * right. exists l. split; [right; exact Hin|]. split; assumption.
    + destruct H4 as [H4|(l & Hin & Hl & Hv)].
      * destruct Hn as [Hn|[Hl Hv]]; [left; exact (eq_trans H4 Hn)|].
        right. exists line. split; [left; reflexivity|]. split; [exact Hl|].
        exact (eq_trans Hv (eq_sym H4)).
      * right. exists l. split; [right; exact Hin|]. split; assumption.
Qed.

(** X1: a block of the Windows query output is a printer only when it has a
    line labelled [DeviceID] and a line labelled [Name] (in any case); the
    device id and the name returned are then not empty, and each is the
    text found between the first and the second colon of such a line. *)
Theorem isValidPrinter_sound (printer : string) :
  fst (isValidPrinter printer) = true ->
  let found := snd (isValidPrinter printer) in
  truthy (Printer.deviceId found) = true
  /\ truthy (Printer.name found) = true
  /\ (exists line, In line (split_lines printer) /\ label_of line = "deviceid"
                   /\ value_of line = Printer.deviceId found)
  /\ (exists line, In line (split_lines printer) /\ label_of line = "name"
                   /\ value_of line = Printer.name found).
Proof.
  unfold isValidPrinter. intros Hvalid.
  pose proof (some_line_sound _ _ Hvalid) as H. cbv zeta in H. cbv zeta.
  destruct H as (H1 & H2 & H3 & H4).
  repeat split; try assumption.
  - destruct H3 as [H3|H3]; [|exact H3].
    rewrite H3 in H1. discriminate.
  - destruct H4 as [H4|H4]; [|exact H4].
    rewrite H4 in H2. discriminate.
Qed.

Definition windows_block : string :=
  ("DeviceID : DYMO LabelWriter 450" ++ String CR (String LF "Name     : DYMO:450"))%string.

Lemma isValidPrinter_sound_witness :
  truthy (Printer.deviceId (snd (isValidPrinter windows_block))) = true
  /\ truthy (Printer.name (snd (isValidPrinter windows_block))) = true
  /\ (exists line, In line (split_lines windows_block) /\ label_of line = "deviceid"
        /\ value_of line = Printer.deviceId (snd (isValidPrinter windows_block)))
  /\ (exists line, In line (split_lines windows_block) /\ label_of line = "name"
        /\ value_of line = Printer.name (snd (isValidPrinter windows_block))).
Proof.
  apply (isValidPrinter_sound windows_block). reflexivity.
Defined.

Definition complete (printer : Printer.t) : Prop :=
  truthy (Printer.deviceId printer) = true /\ truthy (Printer.name printer) = true.

Lemma stdoutHandler_fold (blocks : list string) :
  forall acc : list Printer.t,
    Forall complete acc ->
    Forall complete
      (fold_left
         (fun (printers : list Printer.t) printer =>
            let '(isValid, printerData) := isValidPrinter printer in
            if isValid then printers ++ [printerData] else printers)
         blocks acc).
Proof.
  induction blocks as [|block blocks IH]; intros acc Hacc; simpl; [exact Hacc|].
  apply IH.
  pose proof (some_line_sound (split_lines block) (Printer.mk (Some "") (Some ""))) as Hs.
  fold (isValidPrinter block) in Hs.
  destruct (isValidPrinter block) as [[|] printerData]; [|exact Hacc].
  apply Forall_app. split; [exact Hacc|].
  specialize (Hs eq_refl). cbv zeta in Hs. simpl in Hs.
  apply List.Forall_cons; [split; tauto | apply List.Forall_nil].
Qed.

Lemma stdoutHandler_complete (stdout : string) : Forall complete (stdoutHandler stdout).
Proof. unfold stdoutHandler. apply stdoutHandler_fold. apply List.Forall_nil. Qed.

Lemma listPrintersWindows_complete (env : Env) (w : World) (printers : list Printer.t) :
  fst (listPrintersWindows env w) = Fulfilled printers -> Forall complete printers.
Proof.
  unfold listPrintersWindows, promise, W_bind, run_execute, W_ret.
  destruct (execute env _ _ _) as [stdout|reason]; simpl; intros H; inversion H.
  apply stdoutHandler_complete.
Qed.

(** The [forEach] of [listPrintersMacLinux] changes names only. *)
Lemma alter_with_name_deviceId (name : string) (printers : list Printer.t) :
  forall idx : nat,
    map Printer.deviceId (alter (Printer.with_name name) idx printers)
    = map Printer.deviceId printers.
Proof.
  induction printers as [|printer printers IH]; intros idx; [reflexivity|].
  destruct idx as [|idx]; simpl.
  - reflexivity.
  - f_equal. apply IH.
Qed.

Lemma forEach_update_name_deviceId (results : list (outcome string)) :
  forall (idx : nat) (printers : list Printer.t),
    map Printer.deviceId (forEach_idx update_name results idx printers)
    = map Printer.deviceId printers.
Proof.
  induction results as [|result results IH]; intros idx printers; simpl; [reflexivity|].
  rewrite IH. unfold update_name.
  destruct result as [value| | |]; try reflexivity.
  destruct (nonempty value); [|reflexivity].
  destruct (description_of value); [apply alter_with_name_deviceId | reflexivity].
Qed.

Lemma listPrintersMacLinux_deviceIds (env : Env) (w : World) (printers : list Printer.t) :
  fst (listPrintersMacLinux env w) = Fulfilled printers ->
  exists stdout,
    execute env "lpstat" [Some "-e"] None = inl stdout
    /\ map Printer.deviceId printers = map Some (destination_ids stdout).
Proof.
  unfold listPrintersMacLinux, promise, W_bind at 1, run_execute at 1.
  destruct (execute env "lpstat" [Some "-e"] None) as [stdout|reason]; simpl;
    [|discriminate].
  unfold W_bind.
  match goal with
  | |- context [allSettled ?ps ?w1] => destruct (allSettled ps w1) as [[results| | |] w2]
  end; simpl; try discriminate.
  intros H. inversion H. exists stdout. split; [reflexivity|].
  rewrite forEach_update_name_deviceId. unfold destination_ids.
  rewrite !map_map. reflexivity.
Qed.

Lemma destination_ids_nonempty (stdout : string) :
  Forall (fun id => nonempty id = true) (destination_ids stdout).
Proof.
  unfold destination_ids. apply Forall_map, Forall_forall.
  intros row Hin. apply list_elem_of_In, filter_In in Hin. tauto.
Qed.

Lemma listPrinters_deviceIds (env : Env) (w : World) (printers : list Printer.t) :
  fst (listPrinters env w) = Fulfilled printers ->
  Forall (fun printer => truthy (Printer.deviceId printer) = true) printers.
Proof.
  unfold listPrinters.
  destruct (IS_WINDOWS env); [|destruct (IS_MACOS env || IS_LINUX env)].
  - intros H. apply listPrintersWindows_complete in H.
    eapply Forall_impl; [exact H | intros printer [Hd _]; exact Hd].
  - intros H. apply listPrintersMacLinux_deviceIds in H.
    destruct H as (stdout & _ & Hids).
    assert (Hall : Forall (fun d => truthy d = true) (map Printer.deviceId printers)).
    { rewrite Hids. apply Forall_map.
      eapply Forall_impl; [apply destination_ids_nonempty | intros id Hid; exact Hid]. }
    apply Forall_map in Hall. exact Hall.
  - discriminate.
Qed.

(** ** Dispatch as a whole *)

Section Dispatch.

Variable env : Env.

(** Dispatch changes the configuration at its interface and device id only. *)
Lemma sendDataToPrinter_rec_frame (fuel : nat) :
  forall (self : DymoServices) (w : World),
    let self' := snd (fst (sendDataToPrinter_rec env fuel self w)) in
    Cfg.host (config self') = Cfg.host (config self)
    /\ Cfg.port (config self') = Cfg.port (config self)
    /\ Cfg.device (config self') = Cfg.device (config self).
Proof.
  induction fuel as [|fuel IH]; intros self w; cbv zeta.
  - repeat split.
  - cbn [sendDataToPrinter_rec].
    destruct (negb (truthy (Cfg.interface (config self)))).
    + destruct (listPrinters env w) as [[printers|e|e|] w1];
        [|repeat split; reflexivity|repeat split; reflexivity|repeat split; reflexivity].
      destruct (List.find (is_dymo) printers); [|repeat split; reflexivity].
      match goal with
      | |- context [sendDataToPrinter_rec env fuel ?s w1] =>
          destruct (IH s w1) as (Hh & Hp & Hd)
      end.
      simpl in Hh, Hp, Hd. repeat split; assumption.
    + repeat match goal with
             | |- context [if ?b then _ else _] => destruct b
             end;
        rewrite ?lift_instance; repeat split.
Qed.

(** How dispatch without an interface ends. *)
Lemma sendDataToPrinter_unset (self : DymoServices) (w : World) :
  truthy (Cfg.interface (config self)) = false ->
  (exists e w1,
      listPrinters env w = (Rejected e, w1)
      /\ sendDataToPrinter env self w = (Rejected e, self, w1))
  \/ (exists printers w1,
         listPrinters env w = (Fulfilled printers, w1)
         /\ List.find is_dymo printers = None
         /\ sendDataToPrinter env self w = (Rejected DymoNotFound, self, w1))
  \/ (exists printers printer w1,
         listPrinters env w = (Fulfilled printers, w1)
         /\ List.find is_dymo printers = Some printer
         /\ sendDataToPrinter env self w
            = lift
                ((if IS_WINDOWS env then sendDataToWindowsPrinter env
                  else sendDataToCupsPrinter env)
                   (Buffer_concat (chunks self)) (Printer.deviceId printer))
                (discovered env self printer) w1).
Proof.
  intros Hunset.
  pose proof (listPrinters_settles env w) as Hs.
  unfold sendDataToPrinter. cbn [sendDataToPrinter_rec]. rewrite Hunset. cbn [negb].
  destruct (listPrinters env w) as [[printers|e|e|] w1]; simpl in Hs; try contradiction.
  - destruct (List.find is_dymo printers) as [printer|] eqn:Hfind.
    + right. right. exists printers, printer, w1.
      split; [reflexivity|]. split; [exact Hfind|].
      fold (discovered env self printer).
      unfold discovered. destruct (IS_WINDOWS env); reflexivity.
    + right. left. exists printers, w1. auto.
  - left. exists e, w1. auto.
Qed.

(** X2: the recursion of [sendDataToPrinter] never goes deeper than the one
    retry after discovery: any bound of two or more on its depth gives the
    same result, and that result is a settled promise (fulfilled or
    rejected, never thrown, never left pending). *)
Theorem sendDataToPrinter_one_retry_suffices (fuel : nat) (self : DymoServices)
    (w : World) :
  (2 <= fuel)%nat ->
  sendDataToPrinter_rec env fuel self w = sendDataToPrinter env self w
  /\ settled (fst (fst (sendDataToPrinter_rec env fuel self w))).
Proof.
  intros Hfuel. rewrite (sendDataToPrinter_fuel env fuel self w Hfuel).
  split; [reflexivity | apply sendDataToPrinter_settles].
Qed.

(** X3: dispatch never changes the command buffer, nor the host, port and
    device of the configuration; when an interface is configured it leaves
    the whole instance as it is. *)
Theorem sendDataToPrinter_keeps_instance (self : DymoServices) (w : World) :
  let self' := snd (fst (sendDataToPrinter env self w)) in
  chunks self' = chunks self
  /\ Cfg.host (config self') = Cfg.host (config self)
  /\ Cfg.port (config self') = Cfg.port (config self)
  /\ Cfg.device (config self') = Cfg.device (config self)
  /\ (truthy (Cfg.interface (config self)) = true -> self' = self).
Proof.
  cbv zeta. unfold sendDataToPrinter.
  split; [apply sendDataToPrinter_rec_chunks|].
  pose proof (sendDataToPrinter_rec_frame 2 self w) as (Hh & Hp & Hd).
  repeat split; try assumption.
  intros Hi. cbn [sendDataToPrinter_rec]. rewrite Hi. cbn [negb].
  repeat match goal with
         | |- context [if ?b then _ else _] => destruct b
         end;
    rewrite ?lift_instance; reflexivity.
Qed.

(** X4: an interface that is not empty and is none of the four names is
    refused at dispatch with a ConfigError, before anything is done: the
    instance and the world are as before. *)
Theorem sendDataToPrinter_unknown_interface (self : DymoServices) (w : World)
    (i : string) :
  Cfg.interface (config self) = Some i ->
  i <> "" ->
  ~ In i INTERFACES ->
  sendDataToPrinter env self w = (Rejected (UnknownInterface i), self, w)
  /\ kind_of (UnknownInterface i) = ConfigError.
Proof.
  intros Hi Hne Hnin.
  rewrite (sendDataToPrinter_configured env self w i Hi Hne).
  apply not_in_INTERFACES in Hnin. destruct Hnin as (H1 & H2 & H3 & H4).
  rewrite H1, H2, H3, H4. split; reflexivity.
Qed.




(** X6: when the printer is found by discovery, dispatch never fails with a
    ConfigError: the device id it passes on is never empty. *)
Theorem autodetected_dispatch_is_configured (self : DymoServices) (w : World)
    (e : error) :
  truthy (Cfg.interface (config self)) = false ->
  fst (fst (sendDataToPrinter env self w)) = Rejected e ->
  kind_of e <> ConfigError.
Proof.
  intros Hunset Hr.
  destruct (sendDataToPrinter_unset self w Hunset)
    as [(e' & w1 & Hl & Hs)|[(printers & w1 & Hl & Hf & Hs)
                            |(printers & printer & w1 & Hl & Hf & Hs)]];
    rewrite Hs in Hr.
  - simpl in Hr. inversion Hr. subst e'.
    pose proof (listPrinters_errors env w e) as He. rewrite Hl in He.
    destruct (He eq_refl) as [(_ & _ & ->)|(reason & ->)]; discriminate.
  - simpl in Hr. inversion Hr. discriminate.
  - rewrite lift_outcome in Hr.
    assert (Hid : truthy (Printer.deviceId printer) = true).
    { pose proof (listPrinters_deviceIds env w printers) as Hall.
      rewrite Hl in Hall. specialize (Hall eq_refl).
      apply find_some in Hf. destruct Hf as [Hin _].
      rewrite Forall_forall in Hall. apply Hall, list_elem_of_In, Hin. }
    destruct (IS_WINDOWS env).
    + apply sendDataToWindowsPrinter_errors in Hr.
      destruct Hr as [(reason & ->)|[(reason & ->)|(_ & ->)]]; discriminate.
    + apply sendDataToCupsPrinter_errors in Hr.
      destruct Hr as [(Hfalse & _)|(_ & reason & ->)]; [congruence | discriminate].
Qed.

(** X7: discovery is remembered. When a dispatch without an interface finds
    a Dymo printer, the first descriptor of the listing whose name holds
    [dymo], the instance is left configured for that printer: its interface
    is WINDOWS on Windows and CUPS elsewhere, its device id is the printer's
    and is not empty, its host, port, device and chunks are as before; and
    every later dispatch of that instance goes straight to that transport,
    without discovery. When the listing holds no Dymo printer, or discovery
    is rejected, the instance is left as it was. *)
Theorem discovery_is_remembered (self : DymoServices) (w : World) :
  truthy (Cfg.interface (config self)) = false ->
  let self' := snd (fst (sendDataToPrinter env self w)) in
  match fst (listPrinters env w) with
  | Fulfilled printers =>
      (forall before printer after,
          printers = before ++ printer :: after ->
          Forall (fun p => is_dymo p = false) before ->
          is_dymo printer = true ->
          self'
          = {| config :=
                 Cfg.mk (Some (if IS_WINDOWS env then PRINTER_INTERFACE_WINDOWS
                               else PRINTER_INTERFACE_CUPS))
                   (Cfg.host (config self)) (Cfg.port (config self))
                   (Printer.deviceId printer) (Cfg.device (config self));
               chunks := chunks self |}
          /\ truthy (Printer.deviceId printer) = true
          /\ forall w2 : World,
               sendDataToPrinter env self' w2
               = lift
                   ((if IS_WINDOWS env then sendDataToWindowsPrinter env
                     else sendDataToCupsPrinter env)
                      (Buffer_concat (chunks self)) (Printer.deviceId printer))
                   self' w2)
      /\ (Forall (fun p => is_dymo p = false) printers -> self' = self)
  | _ => self' = self
  end.
Proof.
  intros Hunset. cbv zeta.
  destruct (sendDataToPrinter_unset self w Hunset)
    as [(e' & w1 & Hl & Hs)|[(printers & w1 & Hl & Hf & Hs)
                            |(printers & printer & w1 & Hl & Hf & Hs)]];
    rewrite Hs, Hl; cbn [fst snd].
  - reflexivity.
  - split; [|reflexivity].
    intros before printer after -> _ Hdymo. exfalso.
    assert (Hin : In printer (before ++ printer :: after))
      by (apply in_or_app; right; left; reflexivity).
    rewrite (find_none _ _ Hf printer Hin) in Hdymo. discriminate.
  - rewrite lift_instance. split.
    + intros before printer' after Heq Hbefore Hdymo.
      assert (Hsame : printer' = printer).
      { subst printers. rewrite (find_first is_dymo before after printer') in Hf
          by assumption.
        congruence. }
      subst printer'.
      pose proof (listPrinters_deviceIds env w printers) as Hall.
      rewrite Hl in Hall. specialize (Hall eq_refl).
      apply find_some in Hf. destruct Hf as [Hin _].
      rewrite Forall_forall in Hall.
      split; [|split].
      * unfold discovered. destruct (IS_WINDOWS env); reflexivity.
      * apply Hall, list_elem_of_In, Hin.
      * intros w2. unfold sendDataToPrinter, discovered.
        cbn [sendDataToPrinter_rec].
        destruct (IS_WINDOWS env); reflexivity.
    + intros Hnone. exfalso.
      apply find_some in Hf. destruct Hf as [Hin Hdymo].
      rewrite List.Forall_forall in Hnone. rewrite (Hnone _ Hin) in Hdymo.
      discriminate.
Qed.

End Dispatch.

Lemma sendDataToPrinter_one_retry_suffices_witness :
  sendDataToPrinter_rec linux_env 5 (new_instance Cfg.empty) empty_world
  = sendDataToPrinter linux_env (new_instance Cfg.empty) empty_world
  /\ settled (fst (fst (sendDataToPrinter_rec linux_env 5 (new_instance Cfg.empty)
                          empty_world))).
Proof.
  apply (sendDataToPrinter_one_retry_suffices linux_env 5 (new_instance Cfg.empty)
           empty_world).
  lia.
Defined.

Lemma sendDataToPrinter_keeps_instance_witness :
  snd (fst (sendDataToPrinter linux_env used_instance empty_world)) = used_instance.
Proof.
  apply (sendDataToPrinter_keeps_instance linux_env used_instance empty_world).
  reflexivity.
Defined.

Definition bogus_instance : DymoServices :=
  {| config := Cfg.mk (Some "USB") None None None None; chunks := [CMD_RESET] |}.

Lemma sendDataToPrinter_unknown_interface_witness :
  sendDataToPrinter linux_env bogus_instance empty_world
  = (Rejected (UnknownInterface "USB"), bogus_instance, empty_world)
  /\ kind_of (UnknownInterface "USB") = ConfigError.
Proof.
  apply (sendDataToPrinter_unknown_interface linux_env bogus_instance empty_world "USB").
  - reflexivity.
  - discriminate.
  - simpl. intros [H|[H|[H|[H|[]]]]]; discriminate.
Defined.


(** The host of [linux_env] with a spooler that refuses every job. *)
Definition spooler_down_env : Env :=
  {| platform := platform linux_env;
     tmpdir := tmpdir linux_env;
     dirname := dirname linux_env;
     join := join linux_env;
     randomHex := randomHex linux_env;
     execute := fun command args stdin =>
       if String.eqb command "lp" then inr "lp: Error - scheduler not responding."
       else execute linux_env command args stdin;
     connect := connect linux_env;
     write_error := write_error linux_env |}.

Lemma autodetected_dispatch_is_configured_witness :
  fst (fst (sendDataToPrinter spooler_down_env (new_instance Cfg.empty) empty_world))
  = Rejected (ExecFailed "lp: Error - scheduler not responding.")
  /\ kind_of (ExecFailed "lp: Error - scheduler not responding.") <> ConfigError.
Proof.
  split; [reflexivity|].
  apply (autodetected_dispatch_is_configured spooler_down_env (new_instance Cfg.empty)
           empty_world (ExecFailed "lp: Error - scheduler not responding.")).
  - reflexivity.
  - reflexivity.
Defined.

Lemma discovery_is_remembered_witness :
  let self' := snd (fst (sendDataToPrinter linux_env (new_instance Cfg.empty)
                           empty_world)) in
  self' = new_instance (Cfg.mk (Some "CUPS") None None (Some "DYMO_LabelWriter_450") None)
  /\ forall w2 : World,
       sendDataToPrinter linux_env self' w2
       = lift (sendDataToCupsPrinter linux_env [] (Some "DYMO_LabelWriter_450")) self' w2.
Proof.
  pose proof (discovery_is_remembered linux_env (new_instance Cfg.empty) empty_world
                eq_refl) as H.
  cbv zeta in H.
  assert (Hl : fst (listPrinters linux_env empty_world)
               = Fulfilled
                   [Printer.mk (Some "DYMO_LabelWriter_450")
                      (Some "DYMO LabelWriter 450 Turbo");
                    Printer.mk (Some "Office_Laser") (Some "Office Laser")])
    by reflexivity.
  rewrite Hl in H. destruct H as [H _].
  destruct (H [] (Printer.mk (Some "DYMO_LabelWriter_450")
                    (Some "DYMO LabelWriter 450 Turbo"))
              [Printer.mk (Some "Office_Laser") (Some "Office Laser")]
              eq_refl (List.Forall_nil _) eq_refl) as (Hself & _ & Hnext).
  cbv zeta. split; [exact Hself | exact Hnext].
Defined.

(** ** Print jobs from end to end *)

(** The chunks of a job, as [printBitmap] leaves them. *)
Definition job_chunks (imageBuffer : list (list Z)) (printCount : Z) : list Buffer :=
  init_chunks (Z.of_nat (length (hd [] imageBuffer)) * 8)
    (Z.of_nat (length imageBuffer))
  ++ copies_chunks (map framed imageBuffer) (Z.to_nat printCount - 1).

Lemma framed_mod (row : list Z) :
  framed row = 0x16%Z :: map (fun b => b mod 256)%Z row.
Proof.
  unfold framed, Buffer_from. cbn [map]. f_equal.
  apply map_ext. intros b. apply to_uint8_mod.
Qed.

Lemma job_chunks_mod (imageBuffer : list (list Z)) (printCount : Z) :
  imageBuffer <> [] ->
  job_chunks imageBuffer printCount
  = expected_job (map (map (fun b => b mod 256)%Z) imageBuffer) printCount.
Proof.
  intros Hne. unfold job_chunks, expected_job.
  rewrite init_chunks_bytes.
  assert (Hw : length (hd [] (map (map (fun b => b mod 256)%Z) imageBuffer))
               = length (hd [] imageBuffer)).
  { destruct imageBuffer as [|row0 rest]; [congruence|]. simpl. apply length_map. }
  rewrite Hw, length_map, map_map.
  assert (Hf : map framed imageBuffer
               = map (fun row => 0x16%Z :: map (fun b => b mod 256)%Z row) imageBuffer)
    by (apply map_ext; intros row; apply framed_mod).
  rewrite Hf. reflexivity.
Qed.

Lemma map_mod_bytes (imageBuffer : list (list Z)) :
  Forall (Forall is_byte) imageBuffer ->
  map (map (fun b => b mod 256)%Z) imageBuffer = imageBuffer.
Proof.
  induction 1 as [|row rows Hrow _ IH]; simpl; [reflexivity|].
  rewrite IH. f_equal.
  induction Hrow as [|b row Hb _ IHrow]; simpl; [reflexivity|].
  rewrite IHrow, Z.mod_small by exact Hb. reflexivity.
Qed.

Lemma job_chunks_bytes (imageBuffer : list (list Z)) (printCount : Z) :
  imageBuffer <> [] ->
  Forall (Forall is_byte) imageBuffer ->
  job_chunks imageBuffer printCount = expected_job imageBuffer printCount.
Proof.
  intros Hne Hbytes. rewrite job_chunks_mod by exact Hne.
  rewrite (map_mod_bytes imageBuffer Hbytes). reflexivity.
Qed.

(** The bytes of the job, in one buffer. *)
Definition job_stream (imageBuffer : list (list Z)) (printCount : Z) : Buffer :=
  Buffer_concat (expected_job imageBuffer printCount).

Section EndToEnd.

Variable env : Env.

Lemma printBitmap_job (imageBuffer : list (list Z)) (printCount : Z)
    (self : DymoServices) (w : World) :
  imageBuffer <> [] ->
  (1 <= printCount)%Z ->
  printBitmap env (Some imageBuffer) (Some printCount) self w
  = sendDataToPrinter env
      {| config := config self; chunks := job_chunks imageBuffer printCount |} w.
Proof. intros Hne Hcount. apply printBitmap_valid; assumption. Qed.

(** X8: whatever [printBitmap] is given, the only data it hands to a
    collaborator (standard input of a process, bytes written to a socket or
    a file) is the concatenation of the chunks its buffer holds at the
    end of the call. *)
Theorem printBitmap_sends_only_its_buffer (imageBuffer : option (list (list Z)))
    (printCount : option Z) (self : DymoServices) (w : World) :
  exists evs : list event,
    trace (snd (printBitmap env imageBuffer printCount self w)) = trace w ++ evs
    /\ Forall
         (carries
            (Buffer_concat
               (chunks (snd (fst (printBitmap env imageBuffer printCount self w))))))
         evs.
Proof.
  assert (Hnone : forall o : outcome unit,
             exists evs : list event,
               trace (snd (o, self, w)) = trace w ++ evs
               /\ Forall (carries (Buffer_concat (chunks (snd (fst (o, self, w)))))) evs).
  { intros o. exists []. split; [symmetry; apply app_nil_r | apply List.Forall_nil]. }
  destruct imageBuffer as [[|row0 rest]|]; try apply Hnone.
  assert (Hv : printBitmap env (Some (row0 :: rest)) printCount self w
               = printBitmap env (Some (row0 :: rest))
                   (Some (default 1%Z printCount)) self w)
    by (destruct printCount; reflexivity).
  rewrite Hv. clear Hv.
  destruct (Z_le_gt_dec (default 1%Z printCount) 0) as [Hle|Hgt].
  - unfold printBitmap.
    change (default 1%Z (Some (default 1%Z printCount))) with (default 1%Z printCount).
    replace (default 1 printCount <=? 0)%Z with true
      by (symmetry; apply Z.leb_le; exact Hle).
    apply Hnone.
  - rewrite printBitmap_job by (congruence || lia).
    unfold sendDataToPrinter. rewrite sendDataToPrinter_rec_chunks.
    apply sendDataToPrinter_rec_carries.
Qed.

(** X9: the chunks a valid job leaves in the buffer depend on the matrix and
    the copy count only: not on what the instance held or was configured
    for, not on the platform, not on how the delivery went. *)
Theorem printBitmap_job_is_self_contained (env' : Env) (imageBuffer : list (list Z))
    (printCount : Z) (self self' : DymoServices) (w w' : World) :
  imageBuffer <> [] ->
  (1 <= printCount)%Z ->
  chunks (snd (fst (printBitmap env (Some imageBuffer) (Some printCount) self w)))
  = chunks (snd (fst (printBitmap env' (Some imageBuffer) (Some printCount) self' w'))).
Proof.
  intros Hne Hcount. rewrite !printBitmap_valid_chunks by assumption. reflexivity.
Qed.

(** X10: a matrix whose numbers are not all bytes prints as the matrix
    reduced modulo 256, so every chunk of a job holds bytes only. *)
Theorem printBitmap_reduces_modulo_256 (imageBuffer : list (list Z))
    (printCount : Z) (self : DymoServices) (w : World) :
  imageBuffer <> [] ->
  (1 <= printCount)%Z ->
  let job :=
    chunks (snd (fst (printBitmap env (Some imageBuffer) (Some printCount) self w))) in
  job = expected_job (map (map (fun b => b mod 256)%Z) imageBuffer) printCount
  /\ Forall (Forall is_byte) job.
Proof.
  intros Hne Hcount job.
  assert (Hjob : job = expected_job (map (map (fun b => b mod 256)%Z) imageBuffer)
                         printCount).
  { subst job. rewrite printBitmap_valid_chunks by assumption.
    apply (job_chunks_mod imageBuffer printCount Hne). }
  split; [exact Hjob|]. rewrite Hjob. unfold expected_job.
  assert (Hmod : forall n : Z, is_byte (n mod 256)%Z)
    by (intros n; unfold is_byte; apply Z.mod_pos_bound; lia).
  assert (Hraster : Forall (Forall is_byte)
            (map (fun row => 0x16%Z :: row)
               (map (map (fun b => b mod 256)%Z) imageBuffer))).
  { rewrite map_map. apply Forall_map, Forall_forall. intros row _.
    apply List.Forall_cons; [unfold is_byte; lia|].
    apply Forall_map, Forall_forall. intros b _. apply Hmod. }
  assert (Hesc : Forall is_byte (replicate 313 27%Z))
    by (apply Forall_replicate; unfold is_byte; lia).
  repeat rewrite Forall_app. repeat split.
  - apply List.Forall_cons; [exact Hesc|].
    repeat (apply List.Forall_cons;
            [repeat (apply List.Forall_cons;
                     [first [apply Hmod | unfold is_byte; lia]|]);
             apply List.Forall_nil|]).
    apply List.Forall_nil.
  - apply Forall_concat, Forall_replicate. apply Forall_app. split; [exact Hraster|].
    apply List.Forall_cons; [|apply List.Forall_nil].
    repeat (apply List.Forall_cons; [unfold is_byte; lia|]); apply List.Forall_nil.
  - exact Hraster.
  - apply List.Forall_cons; [|apply List.Forall_nil].
    repeat (apply List.Forall_cons; [unfold is_byte; lia|]); apply List.Forall_nil.
Qed.

End EndToEnd.

Section Delivery.

Variable env : Env.

(** X11: a valid job on an instance configured for NETWORK connects to the
    configured host and port (localhost and 9100 when they are not set); on
    connection the bytes of the job are written once, in one piece, and the
    socket is closed; on a socket error or a timeout the job is rejected
    with that error. No file is touched. *)
Theorem printBitmap_over_network (imageBuffer : list (list Z)) (printCount : Z)
    (self : DymoServices) (w : World) :
  imageBuffer <> [] ->
  (1 <= printCount)%Z ->
  Forall (Forall is_byte) imageBuffer ->
  Cfg.interface (config self) = Some PRINTER_INTERFACE_NETWORK ->
  let host := default "localhost" (Cfg.host (config self)) in
  let port := default 9100%Z (Cfg.port (config self)) in
  let r := printBitmap env (Some imageBuffer) (Some printCount) self w in
  files (snd r) = files w
  /\ match connect env host port with
     | Connected =>
         fst (fst r) = Fulfilled tt
         /\ trace (snd r)
            = trace w ++ [NetConnect host port;
                          NetWrite (job_stream imageBuffer printCount); NetEnd]
     | SocketError reason => fst (fst r) = Rejected (SocketFailed reason)
     | SocketTimeout => fst (fst r) = Rejected ConnectTimeout
     end.
Proof.
  intros Hne Hcount Hbytes Hi host port r. subst r.
  rewrite printBitmap_job, job_chunks_bytes by assumption.
  rewrite (sendDataToPrinter_configured env
             {| config := config self; chunks := expected_job imageBuffer printCount |}
             w PRINTER_INTERFACE_NETWORK Hi)
    by discriminate.
  cbn [String.eqb Ascii.eqb Bool.eqb PRINTER_INTERFACE_NETWORK].
  unfold lift, sendDataToNetworkPrinter. cbn [config chunks].
  fold host. fold port. fold (job_stream imageBuffer printCount).
  destruct (connect env host port); simpl; rewrite <- ?app_assoc; auto.
Qed.

(** X12: a valid job on an instance configured for DEVICE with a device path
    makes one write, of the bytes of the job, to that path; when the write
    succeeds the file at the path holds exactly the job, and when it fails
    the job is rejected with the error of the write and no file changed. *)
Theorem printBitmap_to_device (imageBuffer : list (list Z)) (printCount : Z)
    (self : DymoServices) (w : World) (path : string) :
  imageBuffer <> [] ->
  (1 <= printCount)%Z ->
  Forall (Forall is_byte) imageBuffer ->
  Cfg.interface (config self) = Some PRINTER_INTERFACE_DEVICE ->
  Cfg.device (config self) = Some path ->
  path <> "" ->
  let r := printBitmap env (Some imageBuffer) (Some printCount) self w in
  trace (snd r) = trace w ++ [FsWriteFile path (job_stream imageBuffer printCount)]
  /\ match write_error env path with
     | None =>
         fst (fst r) = Fulfilled tt
         /\ files (snd r) = <[path := job_stream imageBuffer printCount]> (files w)
     | Some reason =>
         fst (fst r) = Rejected (FsFailed reason) /\ files (snd r) = files w
     end.
Proof.
  intros Hne Hcount Hbytes Hi Hdev Hpath r. subst r.
  rewrite printBitmap_job, job_chunks_bytes by assumption.
  rewrite (sendDataToPrinter_configured env
             {| config := config self; chunks := expected_job imageBuffer printCount |}
             w PRINTER_INTERFACE_DEVICE Hi)
    by discriminate.
  cbn [String.eqb Ascii.eqb Bool.eqb PRINTER_INTERFACE_DEVICE PRINTER_INTERFACE_NETWORK
       PRINTER_INTERFACE_CUPS PRINTER_INTERFACE_WINDOWS].
  unfold lift, sendDataToDevicePrinter, promise, fs_writeFile, fs_write.
  cbn [config chunks]. rewrite Hdev.
  destruct path as [|c path]; [congruence|]. cbn [truthy negb].
  change (default "" (Some (String c path))) with (String c path).
  fold (job_stream imageBuffer printCount).
  destruct (write_error env (String c path)); simpl; auto.
Qed.

(** X13: a valid job on an instance configured for CUPS with a device id runs
    [lp -d id] once with the bytes of the job on its standard input, and
    ends as that process does; no file is touched. *)
Theorem printBitmap_to_cups (imageBuffer : list (list Z)) (printCount : Z)
    (self : DymoServices) (w : World) (id : string) :
  imageBuffer <> [] ->
  (1 <= printCount)%Z ->
  Forall (Forall is_byte) imageBuffer ->
  Cfg.interface (config self) = Some PRINTER_INTERFACE_CUPS ->
  Cfg.deviceId (config self) = Some id ->
  id <> "" ->
  let stream := job_stream imageBuffer printCount in
  let r := printBitmap env (Some imageBuffer) (Some printCount) self w in
  trace (snd r) = trace w ++ [Exec "lp" [Some "-d"; Some id] (Some stream)]
  /\ files (snd r) = files w
  /\ fst (fst r)
     = match execute env "lp" [Some "-d"; Some id] (Some stream) with
       | inl _ => Fulfilled tt
       | inr reason => Rejected (ExecFailed reason)
       end.
Proof.
  intros Hne Hcount Hbytes Hi Hid Hne' stream r. subst r stream.
  rewrite printBitmap_job, job_chunks_bytes by assumption.
  rewrite (sendDataToPrinter_configured env
             {| config := config self; chunks := expected_job imageBuffer printCount |}
             w PRINTER_INTERFACE_CUPS Hi)
    by discriminate.
  cbn [String.eqb Ascii.eqb Bool.eqb PRINTER_INTERFACE_DEVICE PRINTER_INTERFACE_NETWORK
       PRINTER_INTERFACE_CUPS PRINTER_INTERFACE_WINDOWS].
  unfold lift, sendDataToCupsPrinter, promise, W_bind, run_execute, W_ret.
  cbn [config chunks]. rewrite Hid.
  destruct id as [|c id]; [congruence|]. cbn [truthy negb].
  change (default "" (Some (String c id))) with (String c id).
  fold (job_stream imageBuffer printCount).
  destruct (execute env "lp" _ _); simpl; auto.
Qed.

(** X14: the Windows transport writes the buffer to the file
    [path.join(os.tmpdir(), "tmp." + hex)], [hex] being the random hex
    string, and then reads [__dirname]. Where that is bound, it runs the
    helper [RP.exe] of that directory with the device id and the file name,
    the buffer on its standard input; the file is removed when the helper
    succeeds, and only then: when the helper fails the file stays, holding
    the buffer. Where [__dirname] is not bound, the transport is rejected
    with the ReferenceError: the helper is not run and the file stays. When
    the file cannot be written, nothing else is done. *)
Theorem sendDataToWindowsPrinter_temporary_file (buffer : Buffer)
    (deviceId : option string) (w : World) :
  let tmp := path_join env (tmpdir env) ("tmp." ++ randomHex env (entropy w))%string in
  let r := sendDataToWindowsPrinter env buffer deviceId w in
  match write_error env tmp with
  | Some reason =>
      fst r = Rejected (FsFailed reason)
      /\ files (snd r) = files w
      /\ trace (snd r) = trace w ++ [RandomBytes 16; FsWriteFile tmp buffer]
  | None =>
      match dirname env with
      | None =>
          fst r = Rejected DirnameNotDefined
          /\ files (snd r) = <[tmp := buffer]> (files w)
          /\ trace (snd r) = trace w ++ [RandomBytes 16; FsWriteFile tmp buffer]
      | Some dir =>
          let helper := path_join env dir "RP.exe" in
          match execute env helper [deviceId; Some tmp] (Some buffer) with
          | inl _ =>
              fst r = Fulfilled tt
              /\ files (snd r) = delete tmp (files w)
              /\ trace (snd r)
                 = trace w ++ [RandomBytes 16; FsWriteFile tmp buffer;
                               Exec helper [deviceId; Some tmp] (Some buffer);
                               FsUnlink tmp]
          | inr reason =>
              fst r = Rejected (ExecFailed reason)
              /\ files (snd r) = <[tmp := buffer]> (files w)
              /\ trace (snd r)
                 = trace w ++ [RandomBytes 16; FsWriteFile tmp buffer;
                               Exec helper [deviceId; Some tmp] (Some buffer)]
          end
      end
  end.
Proof.
  assert (Hnil : forall s : string, (s ++ "")%string = s).
  { induction s as [|c s IH]; [reflexivity|].
    change (String c s ++ "")%string with (String c (s ++ ""))%string.
    rewrite IH. reflexivity. }
  cbv zeta.
  unfold sendDataToWindowsPrinter, promise, tmpFile, randomBytes16_hex,
    fs_writeFileSync, fs_write, read_dirname, run_execute, fs_unlinkSync,
    W_bind, W_ret, W_fail, log.
  cbn [default truthy from_option id].
  cbv beta iota zeta. rewrite Hnil.
  destruct (write_error env _) as [reason|]; cbv beta iota zeta;
    cbn [fst snd files trace entropy as_promise].
  - rewrite <- app_assoc. auto.
  - destruct (dirname env) as [dir|]; cbv beta iota zeta;
      cbn [fst snd files trace entropy as_promise].
    + destruct (execute env _ _ _) as [stdout|reason]; cbv beta iota zeta;
        cbn [fst snd files trace entropy as_promise].
      * rewrite lookup_insert_eq. cbv beta iota zeta.
        cbn [fst snd files trace entropy as_promise].
        rewrite delete_insert_eq, <- !app_assoc. auto.
      * rewrite <- !app_assoc. auto.
    + rewrite <- app_assoc. auto.
Qed.

End Delivery.

Definition device_config : Cfg.t :=
  Cfg.mk (Some PRINTER_INTERFACE_DEVICE) None None None (Some "/dev/usb/lp0").

Definition cups_config : Cfg.t :=
  Cfg.mk (Some PRINTER_INTERFACE_CUPS) None None (Some "DYMO_LabelWriter_450") None.

Lemma printBitmap_over_network_witness :
  fst (fst (printBitmap linux_env (Some (sample_matrix 2)) (Some 1%Z)
              (new_instance network_config) empty_world)) = Fulfilled tt
  /\ trace (snd (printBitmap linux_env (Some (sample_matrix 2)) (Some 1%Z)
                   (new_instance network_config) empty_world))
     = [NetConnect "192.168.1.20" 9100; NetWrite (job_stream (sample_matrix 2) 1);
        NetEnd].
Proof.
  apply (printBitmap_over_network linux_env (sample_matrix 2) 1
           (new_instance network_config) empty_world).
  - discriminate.
  - lia.
  - apply sample_matrix_bytes.
  - reflexivity.
Defined.

Lemma printBitmap_to_device_witness :
  fst (fst (printBitmap linux_env (Some (sample_matrix 2)) (Some 1%Z)
              (new_instance device_config) empty_world)) = Fulfilled tt
  /\ files (snd (printBitmap linux_env (Some (sample_matrix 2)) (Some 1%Z)
                   (new_instance device_config) empty_world))
     = <["/dev/usb/lp0" := job_stream (sample_matrix 2) 1]> ∅.
Proof.
  apply (printBitmap_to_device linux_env (sample_matrix 2) 1
           (new_instance device_config) empty_world "/dev/usb/lp0").
  - discriminate.
  - lia.
  - apply sample_matrix_bytes.
  - reflexivity.
  - reflexivity.
  - discriminate.
Defined.

Lemma printBitmap_to_cups_witness :
  trace (snd (printBitmap linux_env (Some (sample_matrix 2)) (Some 1%Z)
                (new_instance cups_config) empty_world))
  = [Exec "lp" [Some "-d"; Some "DYMO_LabelWriter_450"]
       (Some (job_stream (sample_matrix 2) 1))].
Proof.
  apply (printBitmap_to_cups linux_env (sample_matrix 2) 1
           (new_instance cups_config) empty_world "DYMO_LabelWriter_450").
  - discriminate.
  - lia.
  - apply sample_matrix_bytes.
  - reflexivity.
  - reflexivity.
  - discriminate.
Defined.

(** ** Discovery: what it runs and how it fails *)

(** A static method that leaves the files alone. *)
Definition keeps_files {A} (m : W A) : Prop :=
  forall w : World, files (snd (m w)) = files w.

Lemma keeps_files_bind {A B} (m : W A) (k : A -> W B) :
  keeps_files m -> (forall a, keeps_files (k a)) -> keeps_files (W_bind m k).
Proof.
  intros Hm Hk w. unfold W_bind. specialize (Hm w).
  destruct (m w) as [[a|e|e|] w1]; simpl in Hm; try exact Hm.
  rewrite (Hk a w1). exact Hm.
Qed.

Lemma keeps_files_promise {A} (body : W A) : keeps_files body -> keeps_files (promise body).
Proof.
  intros Hb w. unfold promise. specialize (Hb w). destruct (body w). exact Hb.
Qed.

Lemma keeps_files_run_execute (env : Env) command args stdin :
  keeps_files (run_execute env command args stdin).
Proof. intros w. unfold run_execute. destruct (execute env _ _ _); reflexivity. Qed.

Lemma keeps_files_allSettled {A} (promises : list (W A)) :
  Forall keeps_files promises -> keeps_files (allSettled promises).
Proof.
  induction 1 as [|p rest Hp _ IH]; intros w; simpl; [reflexivity|].
  specialize (Hp w). destruct (p w) as [o w1]. simpl in Hp.
  assert (Hrest : keeps_files (W_bind (allSettled rest) (fun results => W_ret (o :: results))))
    by (apply keeps_files_bind; [exact IH | intros a w'; reflexivity]).
  rewrite (Hrest w1). exact Hp.
Qed.

Lemma listPrinters_keeps_files (env : Env) : keeps_files (listPrinters env).
Proof.
  unfold listPrinters.
  destruct (IS_WINDOWS env); [|destruct (IS_MACOS env || IS_LINUX env)].
  - unfold listPrintersWindows. apply keeps_files_promise, keeps_files_bind.
    + apply keeps_files_run_execute.
    + intros a w. reflexivity.
  - unfold listPrintersMacLinux. apply keeps_files_promise, keeps_files_bind.
    + apply keeps_files_run_execute.
    + intros stdout. apply keeps_files_bind; [|intros a w; reflexivity].
      apply keeps_files_allSettled, Forall_map, Forall_forall. intros printer _.
      apply keeps_files_run_execute.
  - intros w. reflexivity.
Qed.

(** X15: discovery only runs processes, with nothing on their standard input,
    and touches no file. It is rejected either because the platform is none
    of win32, darwin and linux, or with the failure of a process it ran; on
    such a platform it is rejected at once, without running anything. *)
Theorem listPrinters_effects_and_failures (env : Env) (w : World) :
  (exists evs : list event,
      trace (snd (listPrinters env w)) = trace w ++ evs /\ Forall is_query evs)
  /\ files (snd (listPrinters env w)) = files w
  /\ (forall e : error,
         fst (listPrinters env w) = Rejected e ->
         e = UnsupportedOS (platform env) \/ exists reason, e = ExecFailed reason)
  /\ (platform env <> "win32" -> platform env <> "darwin" -> platform env <> "linux" ->
      listPrinters env w = (Rejected (UnsupportedOS (platform env)), w)).
Proof.
  split; [apply listPrinters_queries|].
  split; [apply listPrinters_keeps_files|].
  split.
  - intros e He. apply listPrinters_errors in He.
    destruct He as [(_ & _ & ->)|He]; auto.
  - intros Hw Hm Hl. unfold listPrinters, IS_WINDOWS, IS_MACOS, IS_LINUX.
    apply String.eqb_neq in Hw, Hm, Hl. rewrite Hw, Hm, Hl. reflexivity.
Qed.

Lemma listPrinters_effects_and_failures_witness :
  listPrinters freebsd_env empty_world = (Rejected (UnsupportedOS "freebsd"), empty_world).
Proof.
  apply (listPrinters_effects_and_failures freebsd_env empty_world); discriminate.
Defined.

(** X16: every printer discovery returns has a device id that is not empty;
    on Windows its name is not empty either. *)
Theorem listPrinters_descriptors (env : Env) (w : World) (printers : list Printer.t) :
  fst (listPrinters env w) = Fulfilled printers ->
  Forall (fun printer => truthy (Printer.deviceId printer) = true) printers
  /\ (platform env = "win32" ->
      Forall (fun printer => truthy (Printer.name printer) = true) printers).
Proof.
  intros Hl. split; [exact (listPrinters_deviceIds env w printers Hl)|].
  intros Hwin. unfold listPrinters, IS_WINDOWS in Hl. rewrite Hwin in Hl.
  cbn in Hl. apply listPrintersWindows_complete in Hl.
  eapply Forall_impl; [exact Hl | intros printer [_ Hn]; exact Hn].
Qed.

Lemma listPrinters_descriptors_witness :
  Forall (fun printer => truthy (Printer.deviceId printer) = true)
    [Printer.mk (Some "DYMO_LabelWriter_450") (Some "DYMO LabelWriter 450 Turbo");
     Printer.mk (Some "Office_Laser") (Some "Office Laser")].
Proof.
  apply (listPrinters_descriptors linux_env empty_world). reflexivity.
Defined.

Lemma run_execute_world (env : Env) command args stdin (w : World) :
  snd (run_execute env command args stdin w) = log (Exec command args stdin) w.
Proof. unfold run_execute. destruct (execute env _ _ _); reflexivity. Qed.

Lemma allSettled_execute_trace (env : Env) (args : Printer.t -> list (option string))
    (printers : list Printer.t) :
  forall w : World,
    trace (snd (allSettled
                  (map (fun printer => run_execute env "lpstat" (args printer) None)
                     printers) w))
    = trace w ++ map (fun printer => Exec "lpstat" (args printer) None) printers.
Proof.
  induction printers as [|printer printers IH]; intros w.
  - symmetry. apply app_nil_r.
  - cbn [map allSettled].
    pose proof (run_execute_world env "lpstat" (args printer) None w) as Hw1.
    destruct (run_execute env "lpstat" (args printer) None w) as [o w1].
    simpl in Hw1. subst w1. unfold W_bind.
    specialize (IH (log (Exec "lpstat" (args printer) None) w)).
    destruct (allSettled_fulfils
                (map (fun printer => run_execute env "lpstat" (args printer) None)
                   printers)
                (log (Exec "lpstat" (args printer) None) w)) as (results & Hr).
    destruct (allSettled _ (log (Exec "lpstat" (args printer) None) w)) as [o' w2].
    simpl in Hr, IH. subst o'. cbn [W_ret snd]. rewrite IH. unfold log. cbn [trace].
    rewrite <- app_assoc. reflexivity.
Qed.

(** X17: the listing on macOS and Linux runs [lpstat -e] first; when that
    fails it is rejected with its failure and runs nothing else; otherwise
    it runs one [lpstat -l -p id] for every destination id, in the order of
    the enumeration, and nothing else. *)
Theorem listPrintersMacLinux_processes (env : Env) (w : World) :
  match execute env "lpstat" [Some "-e"] None with
  | inl stdout =>
      trace (snd (listPrintersMacLinux env w))
      = trace w
        ++ Exec "lpstat" [Some "-e"] None
           :: map (fun id => Exec "lpstat" (status_args id) None) (destination_ids stdout)
  | inr reason =>
      fst (listPrintersMacLinux env w) = Rejected (ExecFailed reason)
      /\ trace (snd (listPrintersMacLinux env w))
         = trace w ++ [Exec "lpstat" [Some "-e"] None]
  end.
Proof.
  destruct (execute env "lpstat" [Some "-e"] None) as [stdout|reason] eqn:He.
  - unfold listPrintersMacLinux, promise, W_bind at 1, run_execute at 1.
    rewrite He. unfold W_bind.
    match goal with
    | |- context [allSettled ?ps ?w1] =>
        pose proof (allSettled_execute_trace env
                      (fun printer => [Some "-l"; Some "-p"; Printer.deviceId printer])
                      (map (fun row =>
                              Printer.mk (Some (trim row))
                                (Some (trim (replace_underscores row))))
                         (List.filter (fun row => nonempty (trim row)) (split LF stdout)))
                      w1) as Ht;
        destruct (allSettled_fulfils ps w1) as (results & Hr);
        destruct (allSettled ps w1) as [o w2]
    end.
    simpl in Hr, Ht. subst o. simpl. rewrite Ht. simpl.
    rewrite <- app_assoc. simpl. unfold destination_ids. rewrite !map_map.
    reflexivity.
  - assert (H : listPrintersMacLinux env w
                = (Rejected (ExecFailed reason), log (Exec "lpstat" [Some "-e"] None) w)).
    { unfold listPrintersMacLinux, promise, W_bind at 1, run_execute at 1.
      rewrite He. reflexivity. }
    rewrite H. split; reflexivity.
Qed.

(** ** The size of a job *)

Lemma length_concat_copies_chunks (rows : list Buffer) (k : nat) :
  length (concat (copies_chunks rows k)) = (S k * (length (concat rows) + 2))%nat.
Proof.
  unfold copies_chunks. induction k as [|k IH].
  - cbn [replicate concat app]. rewrite concat_app, length_app. simpl. lia.
  - cbn [replicate concat]. rewrite <- app_assoc, concat_app, length_app, IH.
    rewrite concat_app, length_app. simpl. lia.
Qed.

Lemma length_concat_framed (imageBuffer : list (list Z)) :
  length (concat (map framed imageBuffer))
  = list_sum (map (fun row => S (length row)) imageBuffer).
Proof.
  induction imageBuffer as [|row rows IH]; [reflexivity|].
  cbn [map concat list_sum fold_right]. rewrite length_app, IH.
  unfold framed, Buffer_from. rewrite length_map. reflexivity.
Qed.

(** X18: the buffer of a valid job holds 329 bytes of preamble and set-up,
    and then, for every copy, one byte more than its length for every row
    and two bytes of form feed. *)
Theorem printBitmap_job_length (env : Env) (imageBuffer : list (list Z))
    (printCount : Z) (self : DymoServices) (w : World) :
  imageBuffer <> [] ->
  (1 <= printCount)%Z ->
  length (Buffer_concat
            (chunks (snd (fst (printBitmap env (Some imageBuffer) (Some printCount)
                                 self w)))))
  = (329 + Z.to_nat printCount
           * (list_sum (map (fun row => S (length row)) imageBuffer) + 2))%nat.
Proof.
  intros Hne Hcount.
  rewrite printBitmap_valid_chunks by assumption.
  unfold Buffer_concat. rewrite concat_app, length_app.
  rewrite length_concat_copies_chunks, length_concat_framed.
  replace (S (Z.to_nat printCount - 1)) with (Z.to_nat printCount) by lia.
  f_equal.
Qed.

Lemma printBitmap_job_length_witness :
  length (Buffer_concat
            (chunks (snd (fst (printBitmap linux_env (Some (sample_matrix 2)) (Some 3%Z)
                                 (new_instance network_config) empty_world)))))
  = 569%nat.
Proof.
  apply (printBitmap_job_length linux_env (sample_matrix 2) 3
           (new_instance network_config) empty_world).
  - discriminate.
  - lia.
Defined.

(** ** [print] *)

Section Print.

Variable env : Env.

(** The image type of the caller and [convertImageToBitmap] of
    image-services.js, which is not part of this file: the conversion is a
    parameter, a promise of the bitmap matrix. *)
Variable Image : Type.
Variable convertImageToBitmap : Image -> outcome (list (list Z)).



End Print.


(** ** The description of a printer *)

Lemma find_first_inv {A} (f : A -> bool) (l : list A) (x : A) :
  List.find f l = Some x ->
  exists before after,
    l = before ++ x :: after /\ f x = true /\ Forall (fun y => f y = false) before.
Proof.
  induction l as [|y l IH]; [discriminate|]. simpl.
  destruct (f y) eqn:Hy.
  - intros H. inversion H. subst y. exists [], l.
    split; [reflexivity|]. split; [exact Hy | apply List.Forall_nil].
  - intros H. destruct (IH H) as (before & after & -> & Hx & Hb).
    exists (y :: before), after.
    split; [reflexivity|]. split; [exact Hx | apply List.Forall_cons; assumption].
Qed.

Lemma map_filter_split {A B} (g : A -> B) (h : A -> bool) (l : list A)
    (before : list B) (d : B) (after : list B) :
  map g (List.filter h l) = before ++ d :: after ->
  exists l1 x l2,
    l = l1 ++ x :: l2 /\ h x = true /\ g x = d
    /\ map g (List.filter h l1) = before.
Proof.
  revert before. induction l as [|y l IH]; intros before H; simpl in H.
  - destruct before; discriminate.
  - destruct (h y) eqn:Hy.
    + destruct before as [|b before]; simpl in H; inversion H.
      * exists [], y, l. repeat split; auto.
      * destruct (IH before H2) as (l1 & x & l2 & -> & Hx & Hg & Hm).
        exists (y :: l1), x, l2. simpl. rewrite Hy. simpl. rewrite Hm.
        repeat split; auto.
    + destruct (IH before H) as (l1 & x & l2 & -> & Hx & Hg & Hm).
      exists (y :: l1), x, l2. simpl. rewrite Hy. repeat split; auto.
Qed.

(** X21: the description taken from a status text is the text of the first
    line that starts with [description:] (in any case, after trimming) and
    still has text once every [description:] is removed from it and it is
    trimmed; lines before it are not such lines. It is never empty. When no
    line is such a line, there is no description. *)
Theorem description_of_first_line (value : string) :
  match description_of value with
  | Some description =>
      description <> ""
      /\ exists before line after,
           split LF value = before ++ line :: after
           /\ matches_description (trim line) = true
           /\ description = trim (remove_description line)
           /\ Forall (fun l => matches_description (trim l) = true ->
                               trim (remove_description l) = "") before
  | None =>
      forall line,
        In line (split LF value) ->
        matches_description (trim line) = true ->
        trim (remove_description line) = ""
  end.
Proof.
  destruct (description_of value) as [description|] eqn:Hd.
  - unfold description_of in Hd. apply find_first_inv in Hd.
    destruct Hd as (before & after & Hl & Hne & Hbefore).
    split; [destruct description; [discriminate | congruence]|].
    apply map_filter_split in Hl.
    destruct Hl as (l1 & line & l2 & Hsplit & Hm & Hg & Hmap).
    exists l1, line, l2. repeat split; auto.
    apply Forall_forall. intros l Hin Hml.
    rewrite <- Hmap in Hbefore. rewrite Forall_forall in Hbefore.
    assert (Hf : nonempty (trim (remove_description l)) = false).
    { apply Hbefore. apply list_elem_of_In, in_map_iff. exists l.
      split; [reflexivity|]. apply filter_In. split; [|exact Hml].
      apply list_elem_of_In. exact Hin. }
    destruct (trim (remove_description l)); [reflexivity | discriminate].
  - intros line Hin Hm.
    unfold description_of in Hd.
    pose proof (find_none _ _ Hd (trim (remove_description line))) as Hn.
    destruct (trim (remove_description line)) eqn:Ht; [reflexivity|].
    exfalso. rewrite <- Ht in Hn.
    assert (nonempty (trim (remove_description line)) = false) as Hf.
    { apply Hn. apply in_map_iff. exists line. split; [reflexivity|].
      apply filter_In. auto. }
    rewrite Ht in Hf. discriminate.
Qed.

(** ** The fallback name *)

Lemma includes_underscore_cons (c : ascii) (s : string) :
  includes "_" (String c s) = Ascii.eqb "_" c || includes "_" s.
Proof. simpl. rewrite andb_true_r. reflexivity. Qed.

Lemma replace_underscores_from_no_underscore (b : bool) (s : string) :
  includes "_" (replace_underscores_from b s) = false.
Proof.
  revert b. induction s as [|c s IH]; intros b; [reflexivity|].
  cbn [replace_underscores_from].
  destruct (Ascii.eqb c "_") eqn:Hc.
  - destruct b; [apply IH|]. rewrite includes_underscore_cons, IH. reflexivity.
  - rewrite includes_underscore_cons, IH, Ascii.eqb_sym, Hc. reflexivity.
Qed.

Lemma trimStart_no_underscore (s : string) :
  includes "_" s = false -> includes "_" (trimStart s) = false.
Proof.
  induction s as [|c s IH]; intros H; [reflexivity|].
  cbn [trimStart]. destruct (is_space c); [|exact H].
  rewrite includes_underscore_cons in H. apply orb_false_iff in H. apply IH, H.
Qed.

Lemma trimEnd_no_underscore (s : string) :
  includes "_" s = false -> includes "_" (trimEnd s) = false.
Proof.
  induction s as [|c s IH]; intros H; [reflexivity|].
  rewrite includes_underscore_cons in H. apply orb_false_iff in H.
  destruct H as [Hc Hs]. specialize (IH Hs).
  cbn [trimEnd]. destruct (trimEnd s) as [|c' s'].
  - destruct (is_space c); [reflexivity|].
    rewrite includes_underscore_cons, Hc. reflexivity.
  - rewrite includes_underscore_cons, Hc, IH. reflexivity.
Qed.

(** X22: the fallback name of a destination never contains an underscore. *)
Theorem fallback_name_no_underscore (id : string) :
  includes "_" (fallback_name id) = false.
Proof.
  unfold fallback_name, trim, replace_underscores.
  apply trimEnd_no_underscore, trimStart_no_underscore,
    replace_underscores_from_no_underscore.
Qed.

Lemma printBitmap_job_is_self_contained_witness :
  chunks (snd (fst (printBitmap linux_env (Some (sample_matrix 2)) (Some 3%Z)
                      used_instance empty_world)))
  = chunks (snd (fst (printBitmap (windows_env false) (Some (sample_matrix 2)) (Some 3%Z)
                        (new_instance windows_config) empty_world))).
Proof.
  apply (printBitmap_job_is_self_contained linux_env (windows_env false)
           (sample_matrix 2) 3 used_instance (new_instance windows_config)
           empty_world empty_world).
  - discriminate.
  - lia.
Defined.

Lemma printBitmap_reduces_modulo_256_witness :
  chunks (snd (fst (printBitmap linux_env (Some [[300; -1]%Z]) (Some 1%Z)
                      (new_instance network_config) empty_world)))
  = expected_job [[44; 255]%Z] 1
  /\ Forall (Forall is_byte)
       (chunks (snd (fst (printBitmap linux_env (Some [[300; -1]%Z]) (Some 1%Z)
                            (new_instance network_config) empty_world)))).
Proof.
  apply (printBitmap_reduces_modulo_256 linux_env [[300; -1]%Z] 1
           (new_instance network_config) empty_world).
  - discriminate.
  - lia.
Defined.

(** ** The failures of the transports *)

(** X23: no transport throws to its caller, and each is rejected only as
    follows. Network: with the error of the socket or with the timeout.
    Device: with the empty-device error exactly when the device is missing
    or empty, else with the error of the write. CUPS: with the
    missing-device-id error exactly when the device id is missing or empty,
    else with the failure of [lp]. Windows: with the failure of the helper,
    with the error of a file operation, or, only where [__dirname] is not
    bound, with the ReferenceError; never for a missing device id. *)
Theorem transports_fail_with (env : Env) (buffer : Buffer) (w : World) :
  (forall host port,
      (forall e, fst (sendDataToNetworkPrinter env buffer host port w) <> Thrown e)
      /\ forall e, fst (sendDataToNetworkPrinter env buffer host port w) = Rejected e ->
                   (exists reason, e = SocketFailed reason) \/ e = ConnectTimeout)
  /\ (forall device,
         (forall e, fst (sendDataToDevicePrinter env buffer device w) <> Thrown e)
         /\ forall e, fst (sendDataToDevicePrinter env buffer device w) = Rejected e ->
                      (truthy device = false /\ e = DeviceNameEmpty)
                      \/ (truthy device = true /\ exists reason, e = FsFailed reason))
  /\ (forall deviceId,
         (forall e, fst (sendDataToCupsPrinter env buffer deviceId w) <> Thrown e)
         /\ forall e, fst (sendDataToCupsPrinter env buffer deviceId w) = Rejected e ->
                      (truthy deviceId = false /\ e = CupsDeviceIdMissing)
                      \/ (truthy deviceId = true /\ exists reason, e = ExecFailed reason))
  /\ (forall deviceId,
         (forall e, fst (sendDataToWindowsPrinter env buffer deviceId w) <> Thrown e)
         /\ forall e, fst (sendDataToWindowsPrinter env buffer deviceId w) = Rejected e ->
                      (exists reason, e = ExecFailed reason)
                      \/ (exists reason, e = FsFailed reason)
                      \/ (dirname env = None /\ e = DirnameNotDefined)).
Proof.
  assert (Hsettled : forall (o : outcome unit) e, settled o -> o <> Thrown e)
    by (intros [a|e'|e'|] e Hs; simpl in Hs; congruence || contradiction).
  repeat split.
  - intros e. apply Hsettled, sendDataToNetworkPrinter_settles.
  - apply sendDataToNetworkPrinter_errors.
  - intros e. apply Hsettled, sendDataToDevicePrinter_settles.
  - apply sendDataToDevicePrinter_errors.
  - intros e. apply Hsettled, sendDataToCupsPrinter_settles.
  - apply sendDataToCupsPrinter_errors.
  - intros e. apply Hsettled, sendDataToWindowsPrinter_settles.
  - apply sendDataToWindowsPrinter_errors.
Qed.

(** A Windows host that loads the file as an ES module: [__dirname] is not
    bound. *)
Definition windows_module_env : Env :=
  {| platform := "win32";
     tmpdir := "C:\Temp";
     dirname := None;
     join := fun a b => (a ++ "\" ++ b)%string;
     randomHex := fun _ => "00112233445566778899aabbccddeeff";
     execute := fun _ _ _ => inl "";
     connect := fun _ _ => Connected;
     write_error := fun _ => None |}.

Lemma transports_fail_with_witness :
  fst (sendDataToWindowsPrinter windows_module_env [0x1b; 0x45]%Z (Some "DYMO")
         empty_world) = Rejected DirnameNotDefined
  /\ ((exists reason, DirnameNotDefined = ExecFailed reason)
      \/ (exists reason, DirnameNotDefined = FsFailed reason)
      \/ (dirname windows_module_env = None /\ DirnameNotDefined = DirnameNotDefined)).
Proof.
  split; [reflexivity|].
  apply (proj2 (proj2 (proj2 (proj2 (transports_fail_with windows_module_env
                                       [0x1b; 0x45]%Z empty_world)))
                  (Some "DYMO"))
           DirnameNotDefined).
  reflexivity.
Defined.

(** ** Reading the output of the Windows query *)

(** No character of [s] satisfies [P]. *)
Fixpoint free_of (P : ascii -> bool) (s : string) : bool :=
  match s with
  | EmptyString => true
  | String c r => negb (P c) && free_of P r
  end.

Definition is_newline (c : ascii) : bool := Ascii.eqb c LF || Ascii.eqb c CR.

Definition is_colon (c : ascii) : bool := Ascii.eqb c ":".

(** A device id or name as the query prints it: not empty, on one line,
    without a colon, without white space at either end. *)
Definition plain (v : string) : Prop :=
  v <> ""
  /\ free_of is_newline v = true
  /\ free_of is_colon v = true
  /\ trimStart v = v
  /\ trimEnd v = v.

Definition deviceid_line (id : string) : string :=
  Eval cbv [String.append] in ("DeviceID : " ++ id)%string.

Definition name_line (name : string) : string :=
  Eval cbv [String.append] in ("Name : " ++ name)%string.

(** The block of one printer: its two lines. *)
Definition printer_block (id name : string) : string :=
  (deviceid_line id ++ String CR (String LF (name_line name)))%string.

(** The output for a list of printers: every block followed by a blank line. *)
Fixpoint render_printers (printers : list (string * string)) : string :=
  match printers with
  | [] => EmptyString
  | (id, name) :: rest =>
      (printer_block id name
       ++ String CR (String LF (String CR (String LF (render_printers rest)))))%string
  end.

Lemma append_cons (c : ascii) (a b : string) :
  (String c a ++ b)%string = String c (a ++ b)%string.
Proof. reflexivity. Qed.

Lemma append_nil_r (s : string) : (s ++ "")%string = s.
Proof.
  induction s as [|c s IH]; [reflexivity|]. rewrite append_cons, IH. reflexivity.
Qed.

Lemma append_assoc (a b c : string) :
  ((a ++ b) ++ c)%string = (a ++ (b ++ c))%string.
Proof.
  induction a as [|x a IH]; [reflexivity|]. rewrite !append_cons, IH. reflexivity.
Qed.

Lemma free_of_app (P : ascii -> bool) (a b : string) :
  free_of P (a ++ b)%string = free_of P a && free_of P b.
Proof.
  induction a as [|c a IH]; [reflexivity|].
  rewrite append_cons. cbn [free_of]. rewrite IH, andb_assoc. reflexivity.
Qed.

Lemma split_free (sep : ascii) (s : string) :
  free_of (fun c => Ascii.eqb c sep) s = true -> split sep s = [s].
Proof.
  induction s as [|c s IH]; [reflexivity|].
  cbn [free_of split]. intros H. apply andb_true_iff in H. destruct H as [Hc Hs].
  apply negb_true_iff in Hc. rewrite Hc, (IH Hs). reflexivity.
Qed.

Lemma not_newline (c : ascii) :
  is_newline c = false -> Ascii.eqb c LF = false /\ Ascii.eqb c CR = false.
Proof. unfold is_newline. intros H. apply orb_false_iff in H. exact H. Qed.

Lemma split_lines_free (s : string) :
  free_of is_newline s = true -> split_lines s = [s].
Proof.
  induction s as [|c s IH]; [reflexivity|].
  cbn [free_of]. intros H. apply andb_true_iff in H. destruct H as [Hc Hs].
  apply negb_true_iff, not_newline in Hc. destruct Hc as [Hlf Hcr].
  cbn [split_lines]. rewrite Hlf, Hcr, (IH Hs). reflexivity.
Qed.

Lemma split_lines_crlf (l t : string) :
  free_of is_newline l = true ->
  split_lines (l ++ String CR (String LF t))%string = l :: split_lines t.
Proof.
  induction l as [|c l IH].
  - intros _. reflexivity.
  - cbn [free_of]. intros H. apply andb_true_iff in H. destruct H as [Hc Hl].
    apply negb_true_iff, not_newline in Hc. destruct Hc as [Hlf Hcr].
    rewrite append_cons. cbn [split_lines]. rewrite Hlf, Hcr, (IH Hl). reflexivity.
Qed.

Lemma trim_space_plain (v : string) : plain v -> trim (String " " v) = v.
Proof.
  intros (_ & _ & _ & Hs & He). unfold trim. cbn [trimStart].
  change (is_space " ") with true. cbn iota. rewrite Hs, He. reflexivity.
Qed.

Lemma parts_deviceid_line (id : string) :
  plain id -> map trim (split ":" (deviceid_line id)) = ["DeviceID"; id].
Proof.
  intros Hid. pose proof Hid as (_ & _ & Hcolon & _).
  unfold deviceid_line. cbn [split Ascii.eqb Bool.eqb]. cbn [cons_head].
  rewrite (split_free ":" id Hcolon). cbn [cons_head map].
  rewrite (trim_space_plain id Hid). reflexivity.
Qed.

Lemma parts_name_line (name : string) :
  plain name -> map trim (split ":" (name_line name)) = ["Name"; name].
Proof.
  intros Hn. pose proof Hn as (_ & _ & Hcolon & _).
  unfold name_line. cbn [split Ascii.eqb Bool.eqb]. cbn [cons_head].
  rewrite (split_free ":" name Hcolon). cbn [cons_head map].
  rewrite (trim_space_plain name Hn). reflexivity.
Qed.

Lemma plain_truthy (v : string) : plain v -> truthy (Some v) = true.
Proof. intros (Hne & _). destruct v; [congruence | reflexivity]. Qed.

Lemma isValidPrinter_block (id name : string) :
  plain id ->
  plain name ->
  isValidPrinter (printer_block id name)
  = (true, Printer.mk (Some id) (Some name)).
Proof.
  intros Hid Hname.
  pose proof Hid as (_ & Hnl_id & _). pose proof Hname as (_ & Hnl_name & _).
  unfold isValidPrinter, printer_block.
  rewrite split_lines_crlf by (unfold deviceid_line; cbn [free_of]; exact Hnl_id).
  rewrite split_lines_free by (unfold name_line; cbn [free_of]; exact Hnl_name).
  cbn [some_line].
  rewrite (parts_deviceid_line id Hid), (parts_name_line name Hname).
  cbn [hd nth_error].
  change (toLowerCase "DeviceID" =? "deviceid")%string with true.
  change (toLowerCase "DeviceID" =? "name")%string with false.
  change (toLowerCase "Name" =? "deviceid")%string with false.
  change (toLowerCase "Name" =? "name")%string with true.
  cbn iota. cbn [Printer.deviceId Printer.name].
  rewrite (plain_truthy id Hid), (plain_truthy name Hname).
  reflexivity.
Qed.

(** X24: a block made of the line [DeviceID : id] and the line [Name : name]
    is read as the printer with that device id and that name, for every
    plain id and name. *)
Theorem isValidPrinter_reads_block (id name : string) :
  plain id ->
  plain name ->
  isValidPrinter (printer_block id name)
  = (true, Printer.mk (Some id) (Some name)).
Proof. exact (isValidPrinter_block id name). Qed.

Lemma plain_example : plain "DYMO LabelWriter 450".
Proof. repeat split; try reflexivity. discriminate. Qed.

Lemma isValidPrinter_reads_block_witness :
  isValidPrinter (printer_block "DYMO LabelWriter 450" "DYMO LabelWriter 450")
  = (true, Printer.mk (Some "DYMO LabelWriter 450") (Some "DYMO LabelWriter 450")).
Proof.
  apply (isValidPrinter_reads_block "DYMO LabelWriter 450" "DYMO LabelWriter 450").
  - apply plain_example.
  - apply plain_example.
Defined.

(** Puts a text in front of the piece being read. *)
Definition prepend (l : string) (pieces : list string) : list string :=
  match pieces with
  | h :: t => (l ++ h)%string :: t
  | [] => [l]
  end.

Lemma cons_head_prepend (c : ascii) (l : string) (pieces : list string) :
  cons_head c (prepend l pieces) = prepend (String c l) pieces.
Proof. destruct pieces; reflexivity. Qed.

Lemma newline_run_other (c : ascii) (s : string) :
  is_newline c = false -> newline_run (String c s) = (O, O, EmptyString).
Proof.
  intros H. apply not_newline in H. destruct H as [Hlf Hcr].
  cbn [newline_run]. rewrite Hlf, Hcr. reflexivity.
Qed.

Lemma cons_head_nonempty (c : ascii) (pieces : list string) : cons_head c pieces <> [].
Proof. destruct pieces; discriminate. Qed.

Lemma split_blocks_from_nonempty (s : string) :
  forall skip : nat, split_blocks_from skip s <> [].
Proof.
  induction s as [|c s IH]; intros skip; [discriminate|].
  cbn [split_blocks_from]. destruct skip as [|k]; [|apply IH].
  destruct (newline_run (String c s)) as [[n len] last].
  destruct (2 <=? n)%nat; [discriminate | apply cons_head_nonempty].
Qed.

Lemma split_blocks_free (l s : string) :
  free_of is_newline l = true ->
  split_blocks_from 0 (l ++ s)%string = prepend l (split_blocks_from 0 s).
Proof.
  induction l as [|c l IH].
  - intros _. change ("" ++ s)%string with s.
    destruct (split_blocks_from 0 s) eqn:Hs; [|reflexivity].
    exfalso. exact (split_blocks_from_nonempty s 0 Hs).
  - cbn [free_of]. intros H. apply andb_true_iff in H. destruct H as [Hc Hl].
    apply negb_true_iff in Hc.
    rewrite append_cons. cbn [split_blocks_from].
    rewrite (newline_run_other c _ Hc). cbn [Nat.leb].
    rewrite (IH Hl). apply cons_head_prepend.
Qed.

(** One line break between two lines does not end a block. *)
Lemma split_blocks_line_break (s : string) :
  newline_run s = (O, O, EmptyString) ->
  split_blocks_from 0 (String CR (String LF s))
  = cons_head CR (cons_head LF (split_blocks_from 0 s)).
Proof.
  intros Hs. cbn [split_blocks_from newline_run].
  change (Ascii.eqb CR LF) with false. change (Ascii.eqb CR CR) with true.
  change (Ascii.eqb LF LF) with true. cbn iota. rewrite Hs. reflexivity.
Qed.

(** Two line breaks do. *)
Lemma split_blocks_blank_line (s : string) :
  newline_run s = (O, O, EmptyString) ->
  split_blocks_from 0 (String CR (String LF (String CR (String LF s))))
  = EmptyString :: String CR (String LF EmptyString) :: split_blocks_from 0 s.
Proof.
  intros Hs. cbn [split_blocks_from newline_run].
  change (Ascii.eqb CR LF) with false. change (Ascii.eqb CR CR) with true.
  change (Ascii.eqb LF LF) with true. cbn iota. rewrite Hs. cbn.
  destruct s; reflexivity.
Qed.

Lemma render_printers_start (printers : list (string * string)) :
  newline_run (render_printers printers) = (O, O, EmptyString).
Proof. destruct printers as [|[id name] rest]; reflexivity. Qed.

Lemma split_blocks_render (id name : string) (rest : list (string * string)) :
  plain id ->
  plain name ->
  split_blocks_from 0 (render_printers ((id, name) :: rest))
  = printer_block id name :: String CR (String LF EmptyString)
    :: split_blocks_from 0 (render_printers rest).
Proof.
  intros (_ & Hid & _) (_ & Hname & _).
  cbn [render_printers]. unfold printer_block.
  rewrite append_assoc, append_cons, append_cons.
  rewrite split_blocks_free by (unfold deviceid_line; cbn [free_of]; exact Hid).
  rewrite split_blocks_line_break by reflexivity.
  rewrite split_blocks_free by (unfold name_line; cbn [free_of]; exact Hname).
  rewrite split_blocks_blank_line by apply render_printers_start.
  cbn [prepend cons_head]. rewrite append_nil_r. reflexivity.
Qed.

Lemma trimEnd_app_keep (p v : string) :
  v <> "" -> trimEnd v = v -> trimEnd (p ++ v)%string = (p ++ v)%string.
Proof.
  intros Hne Hv. induction p as [|c p IH]; [exact Hv|].
  rewrite append_cons. cbn [trimEnd]. rewrite IH.
  destruct (p ++ v)%string eqn:Hpv; [|reflexivity].
  exfalso. destruct p as [|c' p'].
  - change ("" ++ v)%string with v in Hpv. congruence.
  - rewrite append_cons in Hpv. discriminate.
Qed.

Lemma trim_printer_block (id name : string) :
  plain name -> trim (printer_block id name) = printer_block id name.
Proof.
  intros (Hne & _ & _ & _ & He). unfold trim.
  assert (Hs : trimStart (printer_block id name) = printer_block id name) by reflexivity.
  rewrite Hs. unfold printer_block.
  change (name_line name) with ("Name : " ++ name)%string.
  change (String CR (String LF ("Name : " ++ name)))%string
    with ((String CR (String LF "Name : ")) ++ name)%string.
  rewrite <- append_assoc. apply trimEnd_app_keep; assumption.
Qed.

Lemma stdoutHandler_render_from (printers : list (string * string)) :
  Forall (fun p => plain (fst p) /\ plain (snd p)) printers ->
  forall acc : list Printer.t,
    fold_left
      (fun (printers : list Printer.t) printer =>
         let '(isValid, printerData) := isValidPrinter printer in
         if isValid then printers ++ [printerData] else printers)
      (List.filter nonempty (map trim (split_blocks_from 0 (render_printers printers))))
      acc
    = acc ++ map (fun p => Printer.mk (Some (fst p)) (Some (snd p))) printers.
Proof.
  induction 1 as [|[id name] rest [Hid Hname] _ IH]; intros acc.
  - simpl. symmetry. apply app_nil_r.
  - simpl in Hid, Hname.
    rewrite (split_blocks_render id name rest Hid Hname).
    cbn [map]. rewrite (trim_printer_block id name Hname).
    change (trim (String CR (String LF EmptyString))) with EmptyString.
    assert (Hblock : nonempty (printer_block id name) = true) by reflexivity.
    cbn [List.filter]. rewrite Hblock.
    change (nonempty EmptyString) with false. cbv iota. cbn [fold_left].
    rewrite (isValidPrinter_block id name Hid Hname).
    rewrite IH, <- app_assoc. reflexivity.
Qed.

(** X25: the output that lists plain printers, block after block with a blank
    line after each, is read back as exactly those printers, in order. *)
Theorem stdoutHandler_reads_printers (printers : list (string * string)) :
  Forall (fun p => plain (fst p) /\ plain (snd p)) printers ->
  stdoutHandler (render_printers printers)
  = map (fun p => Printer.mk (Some (fst p)) (Some (snd p))) printers.
Proof.
  intros Hplain. unfold stdoutHandler, split_blocks.
  rewrite (stdoutHandler_render_from printers Hplain []). reflexivity.
Qed.

Lemma plain_example_pdf : plain "Microsoft Print to PDF".
Proof. repeat split; try reflexivity. discriminate. Qed.

Lemma stdoutHandler_reads_printers_witness :
  stdoutHandler
    (render_printers [("DYMO LabelWriter 450", "DYMO LabelWriter 450");
                      ("Microsoft Print to PDF", "Microsoft Print to PDF")])
  = [Printer.mk (Some "DYMO LabelWriter 450") (Some "DYMO LabelWriter 450");
     Printer.mk (Some "Microsoft Print to PDF") (Some "Microsoft Print to PDF")].
Proof.
  apply (stdoutHandler_reads_printers
           [("DYMO LabelWriter 450", "DYMO LabelWriter 450");
            ("Microsoft Print to PDF", "Microsoft Print to PDF")]).
  repeat (apply List.Forall_cons;
          [split; first [apply plain_example | apply plain_example_pdf]|]).
  apply List.Forall_nil.
Defined.

Definition powershell_args : list (option string) :=
  [Some "-Command"; Some "Get-CimInstance Win32_Printer -Property DeviceID,Name"].

(** X26: the listing on Windows runs the PowerShell query once and nothing
    else; it is rejected with the failure of the query when the query
    fails, and when the query prints plain printers block after block it
    is fulfilled with exactly those printers. *)
Theorem listPrintersWindows_lists (env : Env) (w : World) :
  trace (snd (listPrintersWindows env w))
  = trace w ++ [Exec "Powershell.exe" powershell_args None]
  /\ (forall reason,
         execute env "Powershell.exe" powershell_args None = inr reason ->
         fst (listPrintersWindows env w) = Rejected (ExecFailed reason))
  /\ (forall printers,
         execute env "Powershell.exe" powershell_args None
         = inl (render_printers printers) ->
         Forall (fun p => plain (fst p) /\ plain (snd p)) printers ->
         fst (listPrintersWindows env w)
         = Fulfilled (map (fun p => Printer.mk (Some (fst p)) (Some (snd p))) printers)).
Proof.
  unfold listPrintersWindows, promise, W_bind, run_execute, W_ret.
  fold powershell_args.
  destruct (execute env "Powershell.exe" powershell_args None) as [stdout|reason'].
  - split; [reflexivity|]. split; [discriminate|].
    intros printers Hout Hplain. inversion Hout. subst stdout. simpl.
    unfold stdoutHandler, split_blocks.
    rewrite (stdoutHandler_render_from printers Hplain []). reflexivity.
  - split; [reflexivity|]. split.
    + intros reason Hr. inversion Hr. reflexivity.
    + discriminate.
Qed.

Definition windows_listing_env : Env :=
  {| platform := "win32";
     tmpdir := "C:\Temp";
     dirname := Some "C:\app\dist";
     join := fun a b => (a ++ "\" ++ b)%string;
     randomHex := fun _ => "00112233445566778899aabbccddeeff";
     execute := fun command _ _ =>
       if String.eqb command "Powershell.exe" then
         inl (render_printers [("DYMO LabelWriter 450", "DYMO LabelWriter 450")])
       else inl "";
     connect := fun _ _ => Connected;
     write_error := fun _ => None |}.

Lemma listPrintersWindows_lists_witness :
  fst (listPrintersWindows windows_listing_env empty_world)
  = Fulfilled [Printer.mk (Some "DYMO LabelWriter 450") (Some "DYMO LabelWriter 450")].
Proof.
  apply (proj2 (proj2 (listPrintersWindows_lists windows_listing_env empty_world))
           [("DYMO LabelWriter 450", "DYMO LabelWriter 450")]).
  - reflexivity.
  - apply List.Forall_cons; [split; apply plain_example | apply List.Forall_nil].
Defined.
